(** * certbot-dns-gratisdns: the GratisDNS client, embedded and verified

    A shallow embedding of [_GratisDnsClient] from
    [certbot_dns_gratisdns/dns_gratisdns.py]: the Python string primitives
    the client relies on ([in], [startswith], [endswith], [rpartition],
    [int], [str]), a backtracking matcher for the fragment of [re] used by
    the record-id scraper, and the client's five methods written in a small
    state-and-exception monad over the log of HTTP requests.

    A Python [str] is a [string]: the client only tests its characters for
    equality and for membership in the range [0-9], so the size of the
    alphabet plays no part. *)

From Stdlib Require Import String Ascii List Bool Arith NArith ZArith Lia.
From Stdlib Require Import DecimalString DecimalPos DecimalN.
Import ListNotations.
Local Open Scope string_scope.

(** ** Python exceptions raised by the client and by the builtins it calls *)

Inductive exn : Type :=
| Exception (msg : string)   (* raise Exception(msg) *)
| AssertionError             (* a failed assert statement *)
| ValueError                 (* str.rpartition with an empty separator, int() of a non-number *)
| TypeError.                 (* int(None) *)

(** ** Python [str] operations *)

Module PyStr.

(** [s.startswith(p)] *)
Fixpoint startswith (s p : string) {struct p} : bool :=
  match p with
  | EmptyString => true
  | String a p' =>
      match s with
      | EmptyString => false
      | String b s' => Ascii.eqb a b && startswith s' p'
      end
  end.

(** [s[n:]] *)
Fixpoint drop (n : nat) (s : string) : string :=
  match n with
  | O => s
  | S n' => match s with EmptyString => EmptyString | String _ t => drop n' t end
  end.

(** [s[:n]] *)
Fixpoint take (n : nat) (s : string) : string :=
  match n with
  | O => EmptyString
  | S n' => match s with EmptyString => EmptyString | String c t => String c (take n' t) end
  end.

(** [needle in hay]: substring test. *)
Fixpoint contains (hay needle : string) : bool :=
  startswith hay needle
  || match hay with
     | EmptyString => false
     | String _ t => contains t needle
     end.

(** [s.endswith(suf)] *)
Fixpoint endswith (s suf : string) : bool :=
  String.eqb s suf
  || match s with
     | EmptyString => false
     | String _ t => endswith t suf
     end.

(** [s.find(sub)]: index of the leftmost occurrence, [None] for Python's -1. *)
Fixpoint find (s sub : string) : option nat :=
  if startswith s sub then Some O
  else match s with
       | EmptyString => None
       | String _ t => option_map S (find t sub)
       end.

(** The split of [s] around the last occurrence of [sep]: the part before it
    and the part after it. Later positions are tried before the current one. *)
Fixpoint rsplit_last (s sep : string) : option (string * string) :=
  match s with
  | EmptyString => if startswith s sep then Some (EmptyString, EmptyString) else None
  | String c t =>
      match rsplit_last t sep with
      | Some (h, tl) => Some (String c h, tl)
      | None => if startswith s sep then Some (EmptyString, drop (String.length sep) s) else None
      end
  end.

(** [s.rpartition(sep)]: [(head, sep, tail)] around the last occurrence of
    [sep], [("", "", s)] when [sep] does not occur, [ValueError] for an empty
    separator. *)
Definition rpartition (s sep : string) : exn + (string * string * string) :=
  match sep with
  | EmptyString => inl ValueError
  | String _ _ =>
      match rsplit_last s sep with
      | Some (h, tl) => inr (h, sep, tl)
      | None => inr (EmptyString, EmptyString, s)
      end
  end.

Definition is_digit (c : ascii) : bool :=
  (N_of_ascii "0" <=? N_of_ascii c)%N && (N_of_ascii c <=? N_of_ascii "9")%N.

Fixpoint int_digits (acc : N) (s : string) : option N :=
  match s with
  | EmptyString => Some acc
  | String c t =>
      if is_digit c then int_digits (acc * 10 + (N_of_ascii c - N_of_ascii "0"))%N t
      else None
  end.

(** [sys.int_info.default_max_str_digits]: the longest run of digits that
    [int] and [str] convert under the interpreter's default settings. *)
Definition max_str_digits : nat := 4300.

(** [int(s)] on the strings the client passes to it: a non-empty run of
    ASCII decimal digits. A run of more than [max_str_digits] characters,
    leading zeros counted, is answered with [ValueError]; so is anything
    that is not such a run (signs, blanks and underscores, which Python also
    accepts, never reach this call: see [search_group_digits]). *)
Definition int (s : string) : exn + N :=
  match s with
  | EmptyString => inl ValueError
  | String _ _ =>
      if Nat.leb (String.length s) max_str_digits then
        match int_digits 0 s with
        | Some n => inr n
        | None => inl ValueError
        end
      else inl ValueError
  end.

(** The decimal numeral of [n]: ["0"], or digits without a leading zero. *)
Definition numeral (n : N) : string := NilEmpty.string_of_uint (N.to_uint n).

(** [str(n)] for a non-negative integer: its numeral, [ValueError] when the
    numeral has more than [max_str_digits] digits. *)
Definition str (n : N) : exn + string :=
  if Nat.leb (String.length (numeral n)) max_str_digits then inr (numeral n)
  else inl ValueError.

End PyStr.

(** ** The fragment of Python's [re] used by the scraper *)

Module Re.

Inductive regex : Type :=
| Chr (c : ascii)              (* a literal (escaped) character *)
| Dot                          (* [.] under re.S: any character, newline included *)
| Range (lo hi : ascii)        (* [[lo-hi]] *)
| Eps                          (* the empty pattern *)
| Cat (r1 r2 : regex)          (* r1 r2 *)
| Alt (r1 r2 : regex)          (* r1|r2, left alternative first *)
| LazyStar (r : regex)         (* r*? : as few repetitions as possible *)
| Plus (r : regex)             (* r+  : as many repetitions as possible *)
| Group (r : regex).           (* capturing group number 1 *)

Definition in_range (lo hi c : ascii) : bool :=
  (N_of_ascii lo <=? N_of_ascii c)%N && (N_of_ascii c <=? N_of_ascii hi)%N.

Section Loops.
Context {R : Type}.
(** The matcher of a repetition's body and the continuation of the
    repetition. *)
Variable body : string -> option string -> (string -> option string -> option R) -> option R.
Variable k : string -> option string -> option R.

(** [r*?]: try to go on with [k] first, match the body once more only when
    that fails. *)
Fixpoint lazy_loop (fuel : nat) (s : string) (cap : option string) : option R :=
  match k s cap with
  | Some x => Some x
  | None =>
      match fuel with
      | O => None
      | S fuel' =>
          body s cap
            (fun s' cap' =>
               if Nat.ltb (String.length s') (String.length s)
               then lazy_loop fuel' s' cap' else None)
      end
  end.

(** [r*]: match the body once more first, go on with [k] only when that
    fails. *)
Fixpoint greedy_loop (fuel : nat) (s : string) (cap : option string) : option R :=
  match fuel with
  | O => k s cap
  | S fuel' =>
      match body s cap
              (fun s' cap' =>
                 if Nat.ltb (String.length s') (String.length s)
                 then greedy_loop fuel' s' cap' else None) with
      | Some x => Some x
      | None => k s cap
      end
  end.
End Loops.

(** Backtracking matcher in continuation-passing style: [matches r s cap k]
    matches [r] at the front of [s] and hands the rest of the input and the
    text of group 1 to [k]; when [k] fails the matcher backtracks into [r],
    in the priority order of Python's engine. A repetition does not iterate
    on a body match that consumed nothing, so its loop is bounded by the
    length of the input. *)
Fixpoint matches {R : Type} (r : regex) (s : string) (cap : option string)
         (k : string -> option string -> option R) {struct r} : option R :=
  match r with
  | Chr c =>
      match s with
      | String a t => if Ascii.eqb a c then k t cap else None
      | EmptyString => None
      end
  | Dot =>
      match s with
      | String _ t => k t cap
      | EmptyString => None
      end
  | Range lo hi =>
      match s with
      | String a t => if in_range lo hi a then k t cap else None
      | EmptyString => None
      end
  | Eps => k s cap
  | Cat r1 r2 => matches r1 s cap (fun s' cap' => matches r2 s' cap' k)
  | Alt r1 r2 =>
      match matches r1 s cap k with
      | Some x => Some x
      | None => matches r2 s cap k
      end
  | LazyStar r1 => lazy_loop (matches r1) k (String.length s) s cap
  | Plus r1 =>
      matches r1 s cap (fun s1 cap1 => greedy_loop (matches r1) k (String.length s1) s1 cap1)
  | Group r1 =>
      matches r1 s cap
        (fun s' _ => k s' (Some (PyStr.take (String.length s - String.length s') s)))
  end.

(** The pattern matching exactly the string [s]: what [re.escape(s)]
    compiles to. *)
Fixpoint Lit (s : string) : regex :=
  match s with
  | EmptyString => Eps
  | String c t => Cat (Chr c) (Lit t)
  end.

(** The continuation that ends a match: the match object, represented by
    the text of its group 1. *)
Definition accept : string -> option string -> option (option string) :=
  fun _ cap => Some cap.

(** [re.match(r, s)]: a match anchored at the start of [s]; the result is
    [mo.group(1)]. *)
Definition match_here (r : regex) (s : string) : option (option string) :=
  matches r s None accept.


(** [re.search(r, s)]: the match at the leftmost position that has one. *)
Fixpoint search (r : regex) (s : string) : option (option string) :=
  match match_here r s with
  | Some mo => Some mo
  | None =>
      match s with
      | EmptyString => None
      | String _ t => search r t
      end
  end.

End Re.

(** ** The client *)

Definition GRATISDNS_API : string := "https://admin.gratisdns.com".

(** A value of a form field: the client puts strings and one integer (the
    TTL) into the [data] dictionary. *)
Inductive pyval : Type :=
| VStr (s : string)
| VInt (z : Z).

Inductive method : Type := GET | POST.

(** One call of [self.session.get] or [self.session.post]: the dictionaries
    are association lists in insertion order. *)
Record request : Type := mkRequest {
  meth : method;
  url : string;
  params : list (string * string);
  data : list (string * pyval)
}.

(** The provider, as the client sees it: the text of the response to the
    last request of a session, given every request of the session so far
    (the cookie jar of [requests.Session] is a function of that history). *)
Definition server : Type := list request -> string.

(** What an operation leaves behind: the requests it issued, oldest first,
    and the lines it printed. *)
Record world : Type := mkWorld {
  sent : list request;
  stdout : list string
}.

Definition fresh : world := {| sent := []; stdout := [] |}.

(** [self], in a call whose one-time code has been produced: the fields set
    by [__init__], with [totp_now] the value that [self.totp.now()] returned
    at the time of the call. (A call in which [self.totp.now()] raises sends
    nothing: see [with_code].) *)
Record client : Type := mkClient {
  username : string;
  password : string;
  totp_now : string;
  ttl : Z
}.

(** Computations that issue requests and may raise: the world is kept when
    an exception propagates. *)
Definition M (A : Type) : Type := world -> world * (exn + A).

Definition ret {A} (a : A) : M A := fun w => (w, inr a).

Definition bind {A B} (m : M A) (f : A -> M B) : M B :=
  fun w =>
    match m w with
    | (w', inl e) => (w', inl e)
    | (w', inr a) => f a w'
    end.

Definition raise {A} (e : exn) : M A := fun w => (w, inl e).

Definition lift {A} (r : exn + A) : M A := fun w => (w, r).

Notation "x <- m ;; f" := (bind m (fun x => f))
  (at level 100, m at next level, right associativity).
Notation "m ;;; f" := (bind m (fun _ => f))
  (at level 100, right associativity).

(** [assert b], with assertions enabled (the interpreter's default). *)
Definition py_assert (b : bool) : M unit :=
  if b then ret tt else raise AssertionError.

(** [print(s)] *)
Definition print (s : string) : M unit :=
  fun w => ({| sent := sent w; stdout := (stdout w ++ [s])%list |}, inr tt).

Section Client.
Variable sv : server.
Variable self : client.

(** [self.session.request(...)]: log the request, return [response.text]. *)
Definition session_request (r : request) : M string :=
  fun w =>
    let h := (sent w ++ [r])%list in
    ({| sent := h; stdout := stdout w |}, inr (sv h)).

Definition session_get (u : string) (ps : list (string * string)) : M string :=
  session_request (mkRequest GET u ps []).

Definition session_post (u : string) (ps : list (string * string))
           (d : list (string * pyval)) : M string :=
  session_request (mkRequest POST u ps d).

Definition login : M unit :=
  let totp := totp_now self in
  let data := [("login", VStr (username self));
               ("password", VStr (password self));
               ("action", VStr "logmein");
               ("oauth", VStr totp)] in
  post_response <- session_post GRATISDNS_API [] data ;;
  response <- session_get GRATISDNS_API [("action", "usersetup_user")] ;;
  if negb (PyStr.contains response (username self))
  then raise (Exception ("GratisDNS login failed for " ++ username self))
  else ret tt.

Definition check_domain (full_domain : string) : M unit :=
  let params := [("action", "dns_primarydns")] in
  response <- session_get GRATISDNS_API params ;;
  if negb (PyStr.contains response full_domain)
  then raise (Exception ("Did not find the domain " ++ full_domain
                         ++ " in the GratisDNS account for " ++ username self))
  else ret tt.

Definition add_txt_record (full_domain validation_domain_name validation : string)
  : M unit :=
  login ;;;
  check_domain full_domain ;;;
  py_assert (PyStr.endswith validation_domain_name ("." ++ full_domain)) ;;;
  parts <- lift (PyStr.rpartition validation_domain_name ("." ++ full_domain)) ;;
  let sub_domain := fst (fst parts) in
  let params := [("action", "dns_primary_record_add_txt");
                 ("user_domain", full_domain)] in
  let data := [("action", VStr "dns_primary_record_added_txt");
               ("name", VStr sub_domain);
               ("ttl", VInt (ttl self));
               ("txtdata", VStr validation);
               ("user_domain", VStr full_domain)] in
  session_post GRATISDNS_API params data ;;;
  ret tt.

(** The compiled pattern
    [">%s.*?action=dns_primary_delete_txt(?:&|&amp;)id=([0-9]+)" % re.escape(validation)]. *)
Definition delete_link_pattern (validation : string) : Re.regex :=
  Re.Cat (Re.Chr ">")
    (Re.Cat (Re.Lit validation)
       (Re.Cat (Re.LazyStar Re.Dot)
          (Re.Cat (Re.Lit "action=dns_primary_delete_txt")
             (Re.Cat (Re.Alt (Re.Chr "&") (Re.Lit "&amp;"))
                (Re.Cat (Re.Lit "id=")
                   (Re.Group (Re.Plus (Re.Range "0" "9")))))))).

(** [int(mo.group(1))] *)
Definition int_group (g : option string) : exn + N :=
  match g with
  | Some d => PyStr.int d
  | None => inl TypeError
  end.

Definition get_txt_record_id (full_domain validation : string) : M (option N) :=
  let params := [("action", "dns_primary_changeDNSsetup");
                 ("user_domain", full_domain)] in
  response <- session_get GRATISDNS_API params ;;
  if negb (PyStr.contains response validation)
  then ret None
  else
    match Re.search (delete_link_pattern validation) response with
    | None =>
        print response ;;;
        raise (Exception "Regex match failed")
    | Some g =>
        n <- lift (int_group g) ;;
        ret (Some n)
    end.

Definition del_txt_record (full_domain validation_domain_name validation : string)
  : M unit :=
  login ;;;
  check_domain full_domain ;;;
  py_assert (PyStr.endswith validation_domain_name ("." ++ full_domain)) ;;;
  record_id <- get_txt_record_id full_domain validation ;;
  match record_id with
  | None => ret tt
  | Some id =>
      id_str <- lift (PyStr.str id) ;;
      let params := [("action", "dns_primary_delete_txt");
                     ("id", id_str);
                     ("user_domain", full_domain)] in
      response <- session_get GRATISDNS_API params ;;
      if negb (PyStr.contains response "Record was deleted")
      then raise (Exception "TXT record was not deleted!")
      else ret tt
  end.
End Client.

(** ** The authenticator *)

(** [Authenticator]: the plugin object, once [_setup_credentials] has run.
    [conf] is [self.credentials.conf]; the class attribute [ttl] is
    [Authenticator_ttl]. *)
Record Authenticator : Type := mkAuthenticator {
  conf : string -> string
}.

Definition Authenticator_ttl : Z := 60.

(** [_GratisDnsClient] as [__init__] leaves it: the three credentials and
    the TTL (the session starts empty). *)
Record _GratisDnsClient : Type := mk_GratisDnsClient {
  obj_username : string;
  obj_password : string;
  obj_otp_secret : string;
  obj_ttl : Z
}.

Section Plugin.
Variable sv : server.
(** [pyotp.TOTP(secret).now()] at the time of the call: the one-time code,
    or the exception it raises (a secret that is not base32, for one). *)
Variable totp : string -> exn + string.
Variable self : Authenticator.

Definition _get_gratisdns_client : _GratisDnsClient :=
  mk_GratisDnsClient (conf self "username") (conf self "password")
    (conf self "otp-secret") Authenticator_ttl.

(** A method of the object that starts with [self.login()]: the first thing
    [login] evaluates is [self.totp.now()]. When that raises, nothing has
    been sent and the exception propagates; when it returns, the method runs
    as that of the [client] holding the code. *)
Definition with_code {A} (obj : _GratisDnsClient) (method : client -> M A) : M A :=
  code <- lift (totp (obj_otp_secret obj)) ;;
  method (mkClient (obj_username obj) (obj_password obj) code (obj_ttl obj)).

Definition _perform (domain validation_domain_name validation : string) : M unit :=
  with_code _get_gratisdns_client
    (fun c => add_txt_record sv c domain validation_domain_name validation).

Definition _cleanup (domain validation_domain_name validation : string) : M unit :=
  with_code _get_gratisdns_client
    (fun c => del_txt_record sv c domain validation_domain_name validation).
End Plugin.

(** ** Vocabulary of the properties *)

(** An operation started in a fresh session: the final world and the
    result, the result alone, and the requests issued, in order. *)
Definition run {A} (m : M A) : world * (exn + A) := m fresh.
Definition outcome {A} (m : M A) : exn + A := snd (m fresh).
Definition requests {A} (m : M A) : list request := sent (fst (m fresh)).

(** The world in which the requests [rs] were issued and the lines [out]
    printed. *)
Definition after (rs : list request) (out : list string) : world :=
  {| sent := rs; stdout := out |}.

(** [d.get(key)] on an association list. *)
Fixpoint lookup {V} (key : string) (d : list (string * V)) : option V :=
  match d with
  | [] => None
  | (k', v) :: d' => if String.eqb key k' then Some v else lookup key d'
  end.

(** The [action] a request carries, in its query string or else in its
    form. *)
Definition action (r : request) : option string :=
  match lookup "action" (params r) with
  | Some a => Some a
  | None =>
      match lookup "action" (data r) with
      | Some (VStr a) => Some a
      | _ => None
      end
  end.

(** The six requests of the client, as the methods build them. *)
Definition login_post (self : client) : request :=
  mkRequest POST GRATISDNS_API []
    [("login", VStr (username self)); ("password", VStr (password self));
     ("action", VStr "logmein"); ("oauth", VStr (totp_now self))].

Definition profile_get : request :=
  mkRequest GET GRATISDNS_API [("action", "usersetup_user")] [].

Definition domains_get : request :=
  mkRequest GET GRATISDNS_API [("action", "dns_primarydns")] [].

Definition add_post (self : client) (full_domain name validation : string) : request :=
  mkRequest POST GRATISDNS_API
    [("action", "dns_primary_record_add_txt"); ("user_domain", full_domain)]
    [("action", VStr "dns_primary_record_added_txt"); ("name", VStr name);
     ("ttl", VInt (ttl self)); ("txtdata", VStr validation);
     ("user_domain", VStr full_domain)].

Definition listing_get (full_domain : string) : request :=
  mkRequest GET GRATISDNS_API
    [("action", "dns_primary_changeDNSsetup"); ("user_domain", full_domain)] [].

Definition delete_get (full_domain id : string) : request :=
  mkRequest GET GRATISDNS_API
    [("action", "dns_primary_delete_txt"); ("id", id);
     ("user_domain", full_domain)] [].

(** The session up to and including the domain check. *)
Definition preamble (self : client) : list request :=
  [login_post self; profile_get; domains_get].

(** The response bodies the checks look at. *)
Definition profile_text (sv : server) (self : client) : string :=
  sv [login_post self; profile_get].

Definition domains_text (sv : server) (self : client) : string :=
  sv (preamble self).

Definition listing_text (sv : server) (self : client) (full_domain : string) : string :=
  sv (preamble self ++ [listing_get full_domain])%list.

Definition login_ok (sv : server) (self : client) : bool :=
  PyStr.contains (profile_text sv self) (username self).

Definition domain_ok (sv : server) (self : client) (full_domain : string) : bool :=
  PyStr.contains (domains_text sv self) full_domain.

(** The five kinds of failure and the exception value each one reaches the
    caller as. *)
Inductive failure_kind : Type :=
| AuthenticationError
| DomainNotFoundError
| ParseError
| DeletionFailedError
| PreconditionError.

Definition error_value (self : client) (full_domain : string) (kd : failure_kind) : exn :=
  match kd with
  | AuthenticationError => Exception ("GratisDNS login failed for " ++ username self)
  | DomainNotFoundError =>
      Exception ("Did not find the domain " ++ full_domain
                 ++ " in the GratisDNS account for " ++ username self)
  | ParseError => Exception "Regex match failed"
  | DeletionFailedError => Exception "TXT record was not deleted!"
  | PreconditionError => AssertionError
  end.


(** *** Deletion links in a listing page *)

(** The longest run of decimal digits at the front of [s], and what
    follows it. *)
Fixpoint digits_prefix (s : string) : string :=
  match s with
  | EmptyString => EmptyString
  | String c t => if PyStr.is_digit c then String c (digits_prefix t) else EmptyString
  end.

Fixpoint digits_rest (s : string) : string :=
  match s with
  | EmptyString => EmptyString
  | String c t => if PyStr.is_digit c then digits_rest t else s
  end.

Fixpoint all_digits (s : string) : bool :=
  match s with
  | EmptyString => true
  | String c t => PyStr.is_digit c && all_digits t
  end.

Definition starts_with_digit (s : string) : bool :=
  match s with
  | EmptyString => false
  | String c _ => PyStr.is_digit c
  end.

(** [delete_link s digits]: a deletion-action link whose id parameter is
    exactly [digits] stands at the front of [s]. *)
Definition delete_link (s digits : string) : Prop :=
  exists amp rest,
    s = "action=dns_primary_delete_txt" ++ amp ++ "id=" ++ digits ++ rest
    /\ (amp = "&" \/ amp = "&amp;")
    /\ digits <> EmptyString
    /\ all_digits digits = true
    /\ starts_with_digit rest = false.

(** The same, computed: the id of the deletion link at the front of [s]. *)
Definition id_digits (s : string) : option string :=
  match digits_prefix s with
  | EmptyString => None
  | d => Some d
  end.

(** [amp] followed by [id=] and an id, at the front of [r]. *)
Definition amp_id (amp r : string) : option string :=
  if PyStr.startswith r amp then
    let r2 := PyStr.drop (String.length amp) r in
    if PyStr.startswith r2 "id=" then id_digits (PyStr.drop 3 r2) else None
  else None.

Definition link_id (s : string) : option string :=
  if PyStr.startswith s "action=dns_primary_delete_txt" then
    let r := PyStr.drop 29 s in
    match amp_id "&" r with
    | Some d => Some d
    | None => amp_id "&amp;" r
    end
  else None.

(** The first position of [s], scanning from the left, that [k] accepts. *)
Fixpoint first_suffix {R} (k : string -> option R) (s : string) : option R :=
  match k s with
  | Some x => Some x
  | None =>
      match s with
      | EmptyString => None
      | String _ t => first_suffix k t
      end
  end.

(** The tail of the scraper's pattern, after [.*?]. *)
Definition link_pattern : Re.regex :=
  Re.Cat (Re.Lit "action=dns_primary_delete_txt")
    (Re.Cat (Re.Alt (Re.Chr "&") (Re.Lit "&amp;"))
       (Re.Cat (Re.Lit "id=")
          (Re.Group (Re.Plus (Re.Range "0" "9"))))).

(** [link_free mid tail]: no deletion link starts inside [mid] when [tail]
    follows it. *)
Fixpoint link_free (mid tail : string) : bool :=
  match mid with
  | EmptyString => true
  | String _ m =>
      match link_id (mid ++ tail) with
      | None => link_free m tail
      | Some _ => false
      end
  end.

(** *** The scraper without the regular expression *)

(** The digits of the first deletion link after the leftmost occurrence of
    [">" + v] in [body]. *)
Definition find_record_link (v body : string) : option string :=
  match PyStr.find body (">" ++ v) with
  | None => None
  | Some i => first_suffix link_id (PyStr.drop (i + String.length (">" ++ v)) body)
  end.

(** What [int] makes of these digits, when there are any. *)
Definition record_id (v body : string) : option (exn + N) :=
  option_map PyStr.int (find_record_link v body).

(** *** Decimal numerals *)

(** The value of the numeral [d] read after the digits that gave [acc]. *)
Fixpoint acc_uint (d : Decimal.uint) (acc : N) : N :=
  match d with
  | Decimal.Nil => acc
  | Decimal.D0 l => acc_uint l (acc * 10 + 0)
  | Decimal.D1 l => acc_uint l (acc * 10 + 1)
  | Decimal.D2 l => acc_uint l (acc * 10 + 2)
  | Decimal.D3 l => acc_uint l (acc * 10 + 3)
  | Decimal.D4 l => acc_uint l (acc * 10 + 4)
  | Decimal.D5 l => acc_uint l (acc * 10 + 5)
  | Decimal.D6 l => acc_uint l (acc * 10 + 6)
  | Decimal.D7 l => acc_uint l (acc * 10 + 7)
  | Decimal.D8 l => acc_uint l (acc * 10 + 8)
  | Decimal.D9 l => acc_uint l (acc * 10 + 9)
  end%N.

(** A numeral as [str] prints it: ["0"], or digits that do not start with
    a zero. *)
Definition canonical (d : string) : bool :=
  match d with
  | EmptyString => false
  | String c t => all_digits d && (negb (Ascii.eqb c "0") || String.eqb t "")
  end.

(** [answering_login body sv]: the provider [sv], except that it answers
    every login POST with [body]. *)
Definition is_login (r : request) : bool :=
  match action r with
  | Some a => String.eqb a "logmein"
  | None => false
  end.

Definition answering_login (body : string) (sv : server) : server :=
  fun h => if is_login (last h profile_get) then body else sv h.

(** A client whose credentials file left the username empty. *)
Definition nobody : client := mkClient "" "hunter2" "123456" 60.

(** The plugin configured for [alice], and a clock-free stand-in for the
    one-time code generator. *)
Definition alice_plugin : Authenticator :=
  mkAuthenticator
    (fun key =>
       if String.eqb key "username" then "alice"
       else if String.eqb key "password" then "hunter2"
       else if String.eqb key "otp-secret" then "GE4GMZJSGNRTCNJS"
       else "").

Definition fixed_totp : string -> exn + string := fun _ => inr "123456".

(** *** Test doubles *)

(** A provider that answers the n-th request of a session with the n-th
    body of a script, whatever the request says. *)
Definition scripted (bodies : list string) : server :=
  fun h => nth (List.length h - 1) bodies "".

(** [answering_add body sv]: the provider [sv], except that it answers
    every add-record request with [body]. *)
Definition is_add (r : request) : bool :=
  match action r with
  | Some a => String.eqb a "dns_primary_record_add_txt"
  | None => false
  end.

Definition answering_add (body : string) (sv : server) : server :=
  fun h => if is_add (last h profile_get) then body else sv h.

(** A client as [_get_gratisdns_client] builds it: the plugin's TTL is 60. *)
Definition alice : client := mkClient "alice" "hunter2" "123456" 60.

(** * Properties *)

(** ** Strings *)

Lemma append_empty_r (s : string) : s ++ "" = s.
Proof. induction s as [|c s IH]; simpl; [reflexivity | now rewrite IH]. Qed.

Lemma append_assoc (a b c : string) : (a ++ b) ++ c = a ++ b ++ c.
Proof. induction a as [|x a IH]; simpl; [reflexivity | now rewrite IH]. Qed.

Lemma length_append (a b : string) :
  String.length (a ++ b) = String.length a + String.length b.
Proof. induction a as [|x a IH]; simpl; [reflexivity | now rewrite IH]. Qed.

Lemma startswith_spec (s p : string) :
  PyStr.startswith s p = true <-> exists r, s = p ++ r.
Proof.
  revert s; induction p as [|a p IH]; intros s; simpl.
  - split; [intros _; now exists s | reflexivity].
  - destruct s as [|b s].
    + split; [discriminate | intros [r Hr]; discriminate].
    + rewrite andb_true_iff, Ascii.eqb_eq, IH. split.
      * intros [-> [r ->]]. now exists r.
      * intros [r Hr]. injection Hr as -> ->. split; [reflexivity | now exists r].
Qed.

Lemma startswith_app (p r : string) : PyStr.startswith (p ++ r) p = true.
Proof. apply startswith_spec. now exists r. Qed.

Lemma startswith_length (s p : string) :
  PyStr.startswith s p = true -> String.length p <= String.length s.
Proof.
  intros H. apply startswith_spec in H as [r ->]. rewrite length_append. lia.
Qed.

Lemma drop_app (p r : string) : PyStr.drop (String.length p) (p ++ r) = r.
Proof. induction p as [|a p IH]; simpl; [reflexivity | exact IH]. Qed.

Lemma take_app (p r : string) : PyStr.take (String.length p) (p ++ r) = p.
Proof. induction p as [|a p IH]; simpl; [reflexivity | now rewrite IH]. Qed.

Lemma startswith_drop (s p : string) :
  PyStr.startswith s p = true -> s = p ++ PyStr.drop (String.length p) s.
Proof.
  intros H. apply startswith_spec in H as [r ->]. now rewrite drop_app.
Qed.

Lemma contains_spec (s n : string) :
  PyStr.contains s n = true <-> exists a b, s = a ++ n ++ b.
Proof.
  induction s as [|c s IH]; simpl.
  - rewrite orb_false_r, startswith_spec. split.
    + intros [r Hr]. now exists "", r.
    + intros [a [b H]]. destruct a; [now exists b | discriminate].
  - rewrite orb_true_iff, startswith_spec, IH. split.
    + intros [[r Hr] | [a [b Hab]]].
      * now exists "", r.
      * exists (String c a), b. simpl. now rewrite Hab.
    + intros [[|x a] [b H]].
      * left. now exists b.
      * right. simpl in H. injection H as _ ->. now exists a, b.
Qed.

Lemma contains_app (a n b : string) : PyStr.contains (a ++ n ++ b) n = true.
Proof. apply contains_spec. now exists a, b. Qed.

Lemma contains_tail (c : ascii) (s n : string) :
  PyStr.contains (String c s) n = false -> PyStr.contains s n = false.
Proof. simpl. intros H. now apply orb_false_iff in H. Qed.

Lemma contains_trans (s m n : string) :
  PyStr.contains s m = true -> PyStr.contains m n = true -> PyStr.contains s n = true.
Proof.
  rewrite !contains_spec. intros [a [b ->]] [a' [b' ->]].
  exists (a ++ a'), (b' ++ b). now rewrite !append_assoc.
Qed.

Lemma endswith_spec (s suf : string) :
  PyStr.endswith s suf = true <-> exists p, s = p ++ suf.
Proof.
  induction s as [|c s IH]; cbn [PyStr.endswith].
  - rewrite orb_false_r, String.eqb_eq. split.
    + intros <-. now exists "".
    + intros [p H]. destruct p; [exact H | discriminate].
  - rewrite orb_true_iff, String.eqb_eq, IH. split.
    + intros [<- | [p ->]]; [now exists "" | now exists (String c p)].
    + intros [[|x p] H]; [now left | right].
      simpl in H. injection H as _ ->. now exists p.
Qed.

Lemma endswith_app (p suf : string) : PyStr.endswith (p ++ suf) suf = true.
Proof. apply endswith_spec. now exists p. Qed.

(** ** [rpartition] at a separator that ends the string *)

Lemma rsplit_last_length (s sep h tl : string) :
  sep <> "" -> PyStr.rsplit_last s sep = Some (h, tl) ->
  String.length sep <= String.length s.
Proof.
  intros Hsep. revert h tl. induction s as [|c s IH]; intros h tl; simpl.
  - destruct sep; [congruence | discriminate].
  - destruct (PyStr.rsplit_last s sep) as [[h' tl']|] eqn:E.
    + intros _. specialize (IH _ _ eq_refl). lia.
    + destruct sep as [|a sep]; [congruence|].
      destruct (PyStr.startswith (String c s) (String a sep)) eqn:P; [|discriminate].
      intros _. apply startswith_length in P. exact P.
Qed.

Lemma rsplit_last_suffix (sub sep : string) :
  sep <> "" -> PyStr.rsplit_last (sub ++ sep) sep = Some (sub, "").
Proof.
  intros Hsep. induction sub as [|c sub IH].
  - destruct sep as [|a sep]; [congruence|].
    change ("" ++ String a sep) with (String a sep).
    cbn [PyStr.rsplit_last].
    destruct (PyStr.rsplit_last sep (String a sep)) as [[h tl]|] eqn:E.
    + apply rsplit_last_length in E; [simpl in E; lia | discriminate].
    + pose proof (startswith_app (String a sep) "") as P.
      rewrite append_empty_r in P. rewrite P.
      pose proof (drop_app (String a sep) "") as D.
      rewrite append_empty_r in D. now rewrite D.
  - change (String c sub ++ sep) with (String c (sub ++ sep)).
    cbn [PyStr.rsplit_last]. now rewrite IH.
Qed.

(** ** The runs of the two operations, branch by branch *)

Lemma rpartition_dot (s fd : string) :
  exists parts, PyStr.rpartition s ("." ++ fd) = inr parts.
Proof.
  change ("." ++ fd) with (String "." fd). unfold PyStr.rpartition.
  destruct (PyStr.rsplit_last s (String "." fd)) as [[h tl]|]; eauto.
Qed.

Lemma add_txt_record_run (sv : server) (self : client) (fd vdn v : string) :
  run (add_txt_record sv self fd vdn v) =
  if login_ok sv self then
    if domain_ok sv self fd then
      if PyStr.endswith vdn ("." ++ fd) then
        match PyStr.rpartition vdn ("." ++ fd) with
        | inr parts =>
            (after (preamble self ++ [add_post self fd (fst (fst parts)) v]) [], inr tt)
        | inl e => (after (preamble self) [], inl e)
        end
      else (after (preamble self) [], inl AssertionError)
    else (after (preamble self) [], inl (error_value self fd DomainNotFoundError))
  else (after [login_post self; profile_get] [],
        inl (error_value self fd AuthenticationError)).
Proof.
  unfold run, add_txt_record, login, check_domain, bind, session_post, session_get,
    session_request, py_assert, lift, ret, raise, login_ok, domain_ok, profile_text,
    domains_text, preamble, login_post, profile_get, domains_get, add_post, after,
    error_value, fresh.
  cbn [sent stdout app negb].
  destruct (PyStr.contains (sv _) (username self)); cbn [negb]; [|reflexivity].
  destruct (PyStr.contains (sv _) fd); cbn [negb]; [|reflexivity].
  destruct (PyStr.endswith vdn ("." ++ fd)); [|reflexivity].
  destruct (PyStr.rpartition vdn ("." ++ fd)); reflexivity.
Qed.

Lemma get_txt_record_id_run (sv : server) (fd v : string) (w : world) :
  get_txt_record_id sv fd v w =
  let rs := (sent w ++ [listing_get fd])%list in
  let body := sv rs in
  if PyStr.contains body v then
    match Re.search (delete_link_pattern v) body with
    | None => (after rs (stdout w ++ [body]), inl (Exception "Regex match failed"))
    | Some g =>
        match int_group g with
        | inl e => (after rs (stdout w), inl e)
        | inr n => (after rs (stdout w), inr (Some n))
        end
    end
  else (after rs (stdout w), inr None).
Proof.
  unfold get_txt_record_id, bind, session_get, session_request, lift, ret, raise,
    print, listing_get, after.
  cbn [sent stdout negb].
  destruct (PyStr.contains (sv _) v); cbn [negb]; [|reflexivity].
  destruct (Re.search (delete_link_pattern v) (sv _)) as [g|]; [|reflexivity].
  destruct (int_group g); reflexivity.
Qed.

(** The end of a deletion: the request for record [id] and the check of
    the marker in its response. *)
Lemma del_txt_record_run (sv : server) (self : client) (fd vdn v : string) :
  run (del_txt_record sv self fd vdn v) =
  if login_ok sv self then
    if domain_ok sv self fd then
      if PyStr.endswith vdn ("." ++ fd) then
        let rs := (preamble self ++ [listing_get fd])%list in
        let body := sv rs in
        if PyStr.contains body v then
          match Re.search (delete_link_pattern v) body with
          | None => (after rs [body], inl (error_value self fd ParseError))
          | Some g =>
              match int_group g with
              | inl e => (after rs [], inl e)
              | inr id =>
                  match PyStr.str id with
                  | inl e => (after rs [], inl e)
                  | inr id_str =>
                      let rs' := (rs ++ [delete_get fd id_str])%list in
                      if PyStr.contains (sv rs') "Record was deleted"
                      then (after rs' [], inr tt)
                      else (after rs' [], inl (error_value self fd DeletionFailedError))
                  end
              end
          end
        else (after rs [], inr tt)
      else (after (preamble self) [], inl AssertionError)
    else (after (preamble self) [], inl (error_value self fd DomainNotFoundError))
  else (after [login_post self; profile_get] [],
        inl (error_value self fd AuthenticationError)).
Proof.
  unfold run, del_txt_record, bind at 1 2 3.
  unfold login, check_domain, bind, session_post, session_get,
    session_request, py_assert, lift, ret, raise, login_ok, domain_ok, profile_text,
    domains_text, preamble, login_post, profile_get, domains_get, after,
    error_value, fresh.
  cbn [sent stdout app negb].
  destruct (PyStr.contains (sv _) (username self)); cbn [negb]; [|reflexivity].
  destruct (PyStr.contains (sv _) fd); cbn [negb]; [|reflexivity].
  destruct (PyStr.endswith vdn ("." ++ fd)); [|reflexivity].
  rewrite get_txt_record_id_run. cbn [sent stdout app].
  destruct (PyStr.contains (sv _) v); [|reflexivity].
  destruct (Re.search (delete_link_pattern v) (sv _)) as [g|]; [|reflexivity].
  destruct (int_group g) as [e|id]; [reflexivity|].
  destruct (PyStr.str id) as [e|id_str]; [reflexivity|].
  unfold delete_get, after. cbn [sent stdout app].
  destruct (PyStr.contains (sv _) "Record was deleted"); reflexivity.
Qed.

(** ** The matcher on the pieces of the scraper's pattern *)

Lemma matches_Chr {R} (c : ascii) (s : string) (cap : option string)
      (k : string -> option string -> option R) :
  Re.matches (Re.Chr c) s cap k =
  if PyStr.startswith s (String c "") then k (PyStr.drop 1 s) cap else None.
Proof.
  destruct s as [|a t]; simpl; [reflexivity|].
  rewrite Ascii.eqb_sym, andb_true_r. reflexivity.
Qed.

Lemma matches_Lit {R} (l s : string) (cap : option string)
      (k : string -> option string -> option R) :
  Re.matches (Re.Lit l) s cap k =
  if PyStr.startswith s l then k (PyStr.drop (String.length l) s) cap else None.
Proof.
  revert s; induction l as [|c l IH]; intros s; [reflexivity|].
  destruct s as [|a t]; [reflexivity|].
  cbn [Re.Lit Re.matches PyStr.startswith String.length PyStr.drop].
  rewrite (Ascii.eqb_sym a c).
  destruct (Ascii.eqb c a); cbn [andb]; [apply IH | reflexivity].
Qed.

Lemma lazy_dot {R} (k : string -> option string -> option R) (fuel : nat)
      (s : string) (cap : option string) :
  String.length s <= fuel ->
  Re.lazy_loop (Re.matches Re.Dot) k fuel s cap = first_suffix (fun s' => k s' cap) s.
Proof.
  revert s; induction fuel as [|f IH]; intros s Hlen.
  - destruct s; [|simpl in Hlen; lia]. simpl. now destruct (k "" cap).
  - cbn [Re.lazy_loop]. destruct s as [|a t]; cbn [first_suffix].
    + now destruct (k "" cap).
    + destruct (k (String a t) cap); [reflexivity|].
      cbn [Re.matches]. replace (Nat.ltb (String.length t) (String.length (String a t))) with true.
      * apply IH. simpl in Hlen. lia.
      * symmetry. apply Nat.ltb_lt. simpl. lia.
Qed.

Lemma in_range_digit (a : ascii) : Re.in_range "0" "9" a = PyStr.is_digit a.
Proof. reflexivity. Qed.

Lemma greedy_loop_S {R} body (k : string -> option string -> option R) (f : nat)
      (s : string) (cap : option string) :
  Re.greedy_loop body k (S f) s cap =
  match body s cap
          (fun s' cap' =>
             if Nat.ltb (String.length s') (String.length s)
             then Re.greedy_loop body k f s' cap' else None) with
  | Some x => Some x
  | None => k s cap
  end.
Proof. reflexivity. Qed.

Lemma matches_Range_cons {R} (lo hi a : ascii) (t : string) (cap : option string)
      (k : string -> option string -> option R) :
  Re.matches (Re.Range lo hi) (String a t) cap k =
  if Re.in_range lo hi a then k t cap else None.
Proof. reflexivity. Qed.

Lemma ltb_tail (a : ascii) (t : string) :
  Nat.ltb (String.length t) (String.length (String a t)) = true.
Proof. apply Nat.ltb_lt. simpl. lia. Qed.

Lemma greedy_digits {R} (k : string -> option string -> option R) (fuel : nat)
      (s : string) (cap : option string) (x : R) :
  String.length s <= fuel ->
  k (digits_rest s) cap = Some x ->
  Re.greedy_loop (Re.matches (Re.Range "0" "9")) k fuel s cap = Some x.
Proof.
  revert s; induction fuel as [|f IH]; intros s Hlen Hk.
  - destruct s; [exact Hk | simpl in Hlen; lia].
  - rewrite greedy_loop_S. destruct s as [|a t]; [exact Hk|].
    rewrite matches_Range_cons, in_range_digit, ltb_tail.
    cbn [digits_rest] in Hk. destruct (PyStr.is_digit a).
    + rewrite (IH t); [reflexivity | simpl in Hlen; lia | exact Hk].
    + exact Hk.
Qed.

Lemma digits_split (s : string) : s = digits_prefix s ++ digits_rest s.
Proof.
  induction s as [|c t IH]; [reflexivity|]. simpl.
  destruct (PyStr.is_digit c); [simpl; now rewrite <- IH | reflexivity].
Qed.

Lemma take_digits (s : string) :
  PyStr.take (String.length s - String.length (digits_rest s)) s = digits_prefix s.
Proof.
  rewrite (digits_split s) at 1 3. rewrite length_append.
  replace (String.length (digits_prefix s) + String.length (digits_rest s)
           - String.length (digits_rest s)) with (String.length (digits_prefix s)) by lia.
  apply take_app.
Qed.

Lemma matches_id_group (s : string) (cap : option string) :
  Re.matches (Re.Group (Re.Plus (Re.Range "0" "9"))) s cap Re.accept =
  option_map Some (id_digits s).
Proof.
  change (Re.matches (Re.Group ?r) s cap ?k)
    with (Re.matches r s cap
            (fun s' (_ : option string) =>
               k s' (Some (PyStr.take (String.length s - String.length s') s)))).
  change (Re.matches (Re.Plus ?r) s cap ?k)
    with (Re.matches r s cap
            (fun s1 cap1 => Re.greedy_loop (Re.matches r) k (String.length s1) s1 cap1)).
  unfold id_digits.
  destruct s as [|a t]; [reflexivity|].
  rewrite matches_Range_cons, in_range_digit. cbn [digits_prefix].
  destruct (PyStr.is_digit a) eqn:Ha; [|reflexivity].
  erewrite greedy_digits; [|apply Nat.le_refl|unfold Re.accept; reflexivity].
  cbn [option_map]. do 2 f_equal.
  pose proof (take_digits (String a t)) as H.
  cbn [digits_rest digits_prefix] in H. rewrite Ha in H. exact H.
Qed.

Lemma matches_amp_id (amp r : string) (cap : option string) :
  Re.matches (Re.Lit amp) r cap
    (fun s' cap' =>
       Re.matches (Re.Cat (Re.Lit "id=") (Re.Group (Re.Plus (Re.Range "0" "9"))))
         s' cap' Re.accept) =
  option_map Some (amp_id amp r).
Proof.
  rewrite matches_Lit. unfold amp_id.
  destruct (PyStr.startswith r amp); [|reflexivity].
  change (Re.matches (Re.Cat ?a ?b) ?s ?c ?k)
    with (Re.matches a s c (fun s' cap' => Re.matches b s' cap' k)).
  rewrite matches_Lit.
  destruct (PyStr.startswith _ "id="); [|reflexivity].
  apply matches_id_group.
Qed.

Lemma matches_link_pattern (s : string) (cap : option string) :
  Re.matches link_pattern s cap Re.accept = option_map Some (link_id s).
Proof.
  unfold link_pattern, link_id.
  change (Re.matches (Re.Cat ?a ?b) s cap ?k)
    with (Re.matches a s cap (fun s' cap' => Re.matches b s' cap' k)).
  rewrite matches_Lit.
  destruct (PyStr.startswith s "action=dns_primary_delete_txt"); [|reflexivity].
  change (String.length "action=dns_primary_delete_txt") with 29.
  set (r := PyStr.drop 29 s).
  change (Re.matches (Re.Cat (Re.Alt ?a ?b) ?c) r cap ?k)
    with (match Re.matches a r cap (fun s' cap' => Re.matches c s' cap' k) with
          | Some x => Some x
          | None => Re.matches b r cap (fun s' cap' => Re.matches c s' cap' k)
          end).
  assert (E : forall k : string -> option string -> option (option string),
             Re.matches (Re.Chr "&") r cap k = Re.matches (Re.Lit "&") r cap k).
  { intros k. rewrite matches_Chr, matches_Lit. reflexivity. }
  rewrite E, !matches_amp_id.
  destruct (amp_id "&" r); [reflexivity|]. reflexivity.
Qed.

(** ** The scraper's search, in terms of deletion links *)

Lemma first_suffix_ext {R} (k1 k2 : string -> option R) (s : string) :
  (forall s', k1 s' = k2 s') -> first_suffix k1 s = first_suffix k2 s.
Proof.
  intros E. induction s as [|c t IH]; cbn [first_suffix]; rewrite E.
  - reflexivity.
  - now rewrite IH.
Qed.

Lemma first_suffix_some {R} (k : string -> option R) (s : string) (x : R) :
  first_suffix k s = Some x -> exists a b, s = a ++ b /\ k b = Some x.
Proof.
  induction s as [|c t IH]; cbn [first_suffix].
  - destruct (k "") eqn:E; [|discriminate]. intros [= <-]. now exists "", "".
  - destruct (k (String c t)) eqn:E.
    + intros [= <-]. now exists "", (String c t).
    + intros H. destruct (IH H) as [a [b [-> Hb]]]. now exists (String c a), b.
Qed.

Lemma first_suffix_mid {R} (k : string -> option R) (mid tail : string) (x : R) :
  k tail = Some x ->
  (forall m1 m2, mid = m1 ++ m2 -> m2 <> "" -> k (m2 ++ tail) = None) ->
  first_suffix k (mid ++ tail) = Some x.
Proof.
  intros Hk. induction mid as [|c mid IH]; intros Hnone.
  - change ("" ++ tail) with tail. destruct tail; cbn [first_suffix]; now rewrite Hk.
  - change (String c mid ++ tail) with (String c (mid ++ tail)). cbn [first_suffix].
    assert (E : k (String c (mid ++ tail)) = None)
      by (apply (Hnone "" (String c mid) eq_refl); discriminate).
    rewrite E.
    apply IH. intros m1 m2 -> Hm2. now apply (Hnone (String c m1) m2).
Qed.

Lemma search_first_suffix (r : Re.regex) (s : string) :
  Re.search r s = first_suffix (Re.match_here r) s.
Proof. induction s as [|c t IH]; cbn [Re.search first_suffix]; now try rewrite IH. Qed.

Lemma match_here_pattern (v s : string) :
  Re.match_here (delete_link_pattern v) s =
  if PyStr.startswith s (">" ++ v)
  then first_suffix (fun s' => option_map Some (link_id s'))
         (PyStr.drop (String.length (">" ++ v)) s)
  else None.
Proof.
  unfold Re.match_here, delete_link_pattern.
  change (Re.Cat (Re.Lit "action=dns_primary_delete_txt") _) with link_pattern.
  change (Re.matches (Re.Cat ?a ?b) s None ?k)
    with (Re.matches a s None (fun s' cap' => Re.matches b s' cap' k)).
  rewrite matches_Chr.
  change (">" ++ v) with (String ">" v).
  destruct s as [|a t]; [reflexivity|].
  cbn [PyStr.startswith String.length PyStr.drop]. rewrite andb_true_r.
  destruct (Ascii.eqb ">" a); cbn [andb]; [|reflexivity].
  change (Re.matches (Re.Cat ?a ?b) t None ?k)
    with (Re.matches a t None (fun s' cap' => Re.matches b s' cap' k)).
  rewrite matches_Lit.
  destruct (PyStr.startswith t v); [|reflexivity].
  set (s2 := PyStr.drop (String.length v) t).
  change (Re.matches (Re.Cat (Re.LazyStar ?r) ?b) s2 None ?k)
    with (Re.lazy_loop (Re.matches r) (fun s' cap' => Re.matches b s' cap' k)
            (String.length s2) s2 None).
  rewrite lazy_dot by apply Nat.le_refl.
  apply first_suffix_ext. intros s'. apply matches_link_pattern.
Qed.

Lemma search_contains (v s : string) (g : option string) :
  Re.search (delete_link_pattern v) s = Some g ->
  PyStr.contains s (">" ++ v) = true.
Proof.
  induction s as [|c t IH]; cbn [Re.search PyStr.contains];
    rewrite match_here_pattern.
  - destruct (PyStr.startswith "" (">" ++ v)); [reflexivity | discriminate].
  - destruct (PyStr.startswith (String c t) (">" ++ v)); [reflexivity|].
    intros H. rewrite (IH H). reflexivity.
Qed.

Lemma search_leftmost (v pre rest : string) (g : option string) :
  PyStr.find (pre ++ ">" ++ v ++ rest) (">" ++ v) = Some (String.length pre) ->
  first_suffix (fun s' => option_map Some (link_id s')) rest = Some g ->
  Re.search (delete_link_pattern v) (pre ++ ">" ++ v ++ rest) = Some g.
Proof.
  intros Hfind Hrest. induction pre as [|c pre IH].
  - change ("" ++ ">" ++ v ++ rest) with ((">" ++ v) ++ rest).
    rewrite search_first_suffix.
    assert (E : Re.match_here (delete_link_pattern v) ((">" ++ v) ++ rest) = Some g).
    { rewrite match_here_pattern, startswith_app, drop_app. exact Hrest. }
    change ((">" ++ v) ++ rest) with (String ">" (v ++ rest)) in *.
    cbn [first_suffix]. now rewrite E.
  - change (String c pre ++ ">" ++ v ++ rest) with (String c (pre ++ ">" ++ v ++ rest)) in *.
    cbn [PyStr.find String.length] in Hfind.
    cbn [Re.search]. rewrite match_here_pattern.
    destruct (PyStr.startswith (String c (pre ++ ">" ++ v ++ rest)) (">" ++ v));
      [discriminate|].
    apply IH.
    destruct (PyStr.find (pre ++ ">" ++ v ++ rest) (">" ++ v)); [|discriminate].
    cbn [option_map] in Hfind. now injection Hfind as ->.
Qed.

(** *** Deletion links, computed and stated *)

Lemma all_digits_prefix (s : string) : all_digits (digits_prefix s) = true.
Proof.
  induction s as [|c t IH]; [reflexivity|]. cbn [digits_prefix].
  destruct (PyStr.is_digit c) eqn:E; [|reflexivity]. cbn [all_digits]. now rewrite E.
Qed.

Lemma digits_rest_start (s : string) : starts_with_digit (digits_rest s) = false.
Proof.
  induction s as [|c t IH]; [reflexivity|]. cbn [digits_rest].
  destruct (PyStr.is_digit c) eqn:E; [exact IH | exact E].
Qed.

Lemma digits_prefix_app (d rest : string) :
  all_digits d = true -> starts_with_digit rest = false ->
  digits_prefix (d ++ rest) = d.
Proof.
  intros Hd Hrest. induction d as [|c d IH].
  - destruct rest as [|a rest]; [reflexivity|]. simpl in *. now rewrite Hrest.
  - cbn [all_digits] in Hd. apply andb_true_iff in Hd as [Hc Hd].
    change (String c d ++ rest) with (String c (d ++ rest)).
    cbn [digits_prefix]. rewrite Hc. now rewrite IH.
Qed.

Lemma id_digits_app (d rest : string) :
  d <> "" -> all_digits d = true -> starts_with_digit rest = false ->
  id_digits (d ++ rest) = Some d.
Proof.
  intros Hne Hd Hrest. unfold id_digits. rewrite digits_prefix_app by assumption.
  destruct d; [congruence | reflexivity].
Qed.

Lemma id_digits_some (s d : string) :
  id_digits s = Some d ->
  s = d ++ digits_rest s /\ d <> "" /\ all_digits d = true.
Proof.
  unfold id_digits. intros H.
  assert (E : digits_prefix s = d) by (destruct (digits_prefix s); congruence).
  subst d. split; [apply digits_split | split; [|apply all_digits_prefix]].
  destruct (digits_prefix s); [discriminate | discriminate].
Qed.

Lemma amp_id_some (amp r d : string) :
  amp_id amp r = Some d ->
  exists r3, r = amp ++ "id=" ++ r3 /\ id_digits r3 = Some d.
Proof.
  unfold amp_id. destruct (PyStr.startswith r amp) eqn:E1; [|discriminate].
  destruct (PyStr.startswith (PyStr.drop (String.length amp) r) "id=") eqn:E2;
    [|discriminate].
  intros H. exists (PyStr.drop 3 (PyStr.drop (String.length amp) r)). split; [|exact H].
  apply startswith_drop in E1. apply startswith_drop in E2.
  rewrite E1 at 1. f_equal. exact E2.
Qed.

Lemma link_id_sound (s d : string) : link_id s = Some d -> delete_link s d.
Proof.
  unfold link_id.
  destruct (PyStr.startswith s "action=dns_primary_delete_txt") eqn:E; [|discriminate].
  apply startswith_drop in E.
  change (String.length "action=dns_primary_delete_txt") with 29 in E.
  set (r := PyStr.drop 29 s) in *. intros H.
  assert (exists amp, (amp = "&" \/ amp = "&amp;") /\ amp_id amp r = Some d)
    as [amp [Hamp Hid]].
  { destruct (amp_id "&" r) eqn:E1.
    - exists "&". split; [now left | congruence].
    - exists "&amp;". split; [now right | exact H]. }
  apply amp_id_some in Hid as [r3 [Hr Hd]].
  apply id_digits_some in Hd as [Hr3 [Hne Hall]].
  exists amp, (digits_rest r3). repeat split; try assumption.
  - rewrite E, Hr. do 3 f_equal. exact Hr3.
  - apply digits_rest_start.
Qed.

Lemma link_id_complete (s d : string) : delete_link s d -> link_id s = Some d.
Proof.
  intros [amp [rest [-> [Hamp [Hne [Hall Hrest]]]]]].
  unfold link_id. rewrite startswith_app.
  change 29 with (String.length "action=dns_primary_delete_txt"). rewrite drop_app.
  pose proof (id_digits_app d rest Hne Hall Hrest) as Hid.
  destruct Hamp as [-> | ->]; unfold amp_id; cbn -[id_digits]; now rewrite Hid.
Qed.

(** *** [int] on what group 1 captures *)

Lemma int_digits_total (d : string) (acc : N) :
  all_digits d = true -> exists n, PyStr.int_digits acc d = Some n.
Proof.
  revert acc; induction d as [|c d IH]; intros acc H; cbn [PyStr.int_digits].
  - now exists acc.
  - cbn [all_digits] in H. apply andb_true_iff in H as [-> H]. now apply IH.
Qed.

Lemma int_total (d : string) :
  d <> "" -> all_digits d = true -> String.length d <= PyStr.max_str_digits ->
  exists n, PyStr.int d = inr n /\ PyStr.int_digits 0 d = Some n.
Proof.
  intros Hne Hall Hlen. destruct (int_digits_total d 0 Hall) as [n Hn].
  exists n. split; [|exact Hn]. unfold PyStr.int.
  destruct d; [congruence|].
  apply Nat.leb_le in Hlen. now rewrite Hlen, Hn.
Qed.

Lemma int_too_long (d : string) :
  PyStr.max_str_digits < String.length d -> PyStr.int d = inl ValueError.
Proof.
  intros Hlen. unfold PyStr.int. destruct d; [reflexivity|].
  apply Nat.leb_gt in Hlen. now rewrite Hlen.
Qed.

(** Whatever the page, group 1 of a match of the scraper's pattern took
    part in the match and is a non-empty run of digits: [int] is never handed
    [None] or a text that is not a number. *)
Lemma search_group_digits (v s : string) (g : option string) :
  Re.search (delete_link_pattern v) s = Some g ->
  exists d, g = Some d /\ d <> "" /\ all_digits d = true.
Proof.
  rewrite search_first_suffix. intros H.
  apply first_suffix_some in H as [a [b [_ H]]].
  rewrite match_here_pattern in H.
  destruct (PyStr.startswith b (">" ++ v)); [|discriminate].
  apply first_suffix_some in H as [a' [b' [_ H]]].
  destruct (link_id b') as [d|] eqn:E; [|discriminate].
  cbn [option_map] in H. injection H as <-.
  apply link_id_sound in E as [amp [rest [_ [_ [Hne [Hall _]]]]]].
  now exists d.
Qed.

(** ** The subdomain of an added record *)

(** C1: for every apex domain [apex] and every [sub], [add_txt_record] called
    with [full_domain = apex] and [validation_domain_name = sub + "." + apex]
    computes [sub] as the subdomain: [rpartition] splits at the final
    [".apex"], every add request the call issues carries [name = sub], and
    once login and the domain check pass that request is issued. *)
Theorem add_txt_record_subdomain (sv : server) (self : client) (apex sub value : string) :
  let m := add_txt_record sv self apex (sub ++ "." ++ apex) value in
  PyStr.rpartition (sub ++ "." ++ apex) ("." ++ apex) = inr (sub, "." ++ apex, "")
  /\ (forall r, In r (requests m) ->
                action r = Some "dns_primary_record_add_txt" ->
                lookup "name" (data r) = Some (VStr sub))
  /\ (login_ok sv self = true -> domain_ok sv self apex = true ->
      run m = (after (preamble self ++ [add_post self apex sub value]) [], inr tt)).
Proof.
  intros m.
  assert (Hrp : PyStr.rpartition (sub ++ "." ++ apex) ("." ++ apex)
                = inr (sub, "." ++ apex, "")).
  { unfold PyStr.rpartition. change ("." ++ apex) with (String "." apex).
    rewrite rsplit_last_suffix by discriminate. reflexivity. }
  assert (Hrun := add_txt_record_run sv self apex (sub ++ "." ++ apex) value).
  fold m in Hrun. rewrite Hrp, endswith_app in Hrun. cbn [fst] in Hrun.
  split; [exact Hrp | split].
  - unfold requests. unfold run in Hrun. rewrite Hrun. intros r Hin Hact.
    destruct (login_ok sv self); [destruct (domain_ok sv self apex)|];
      cbn [fst sent after preamble app In] in Hin;
      repeat (destruct Hin as [<- | Hin]; [try discriminate Hact; try reflexivity|]);
      contradiction.
  - intros Hl Hd. rewrite Hrun, Hl, Hd. reflexivity.
Qed.

Lemma add_txt_record_subdomain_witness :
  run (add_txt_record (scripted [""; "alice"; "example.com"; "ok"]) alice
         "example.com" "_acme-challenge.example.com" "abc123")
  = (after (preamble alice
            ++ [add_post alice "example.com" "_acme-challenge" "abc123"]) [], inr tt).
Proof.
  apply (add_txt_record_subdomain (scripted [""; "alice"; "example.com"; "ok"]) alice
           "example.com" "_acme-challenge" "abc123"); reflexivity.
Defined.

(** ** The precondition on the validation name *)

(** C2 as stated fails: with a validation name outside the apex, the
    assertion is reached only after login and the domain check, so three
    requests have been issued when it fires. *)
Lemma precondition_before_network_counterexample :
  ~ (forall (sv : server) (self : client) (fd vdn v : string),
        PyStr.endswith vdn ("." ++ fd) = false ->
        run (add_txt_record sv self fd vdn v) = (after [] [], inl AssertionError)
        /\ run (del_txt_record sv self fd vdn v) = (after [] [], inl AssertionError)).
Proof.
  intros H.
  destruct (H (scripted [""; "alice"; "example.com"]) alice
              "example.com" "_acme-challenge.example.org" "abc123" eq_refl) as [Ha _].
  vm_compute in Ha. discriminate Ha.
Qed.

(** C2, amended: for every input whose validation name does not end with
    ["." + full_domain], neither operation returns successfully and neither
    issues a request other than the login, profile and domain-list requests;
    when login and the domain check pass, both fail the assertion right after
    these three requests, before any add, listing or deletion request. *)
Theorem precondition_checked_before_mutation
        (sv : server) (self : client) (fd vdn v : string) :
  PyStr.endswith vdn ("." ++ fd) = false ->
  let a := add_txt_record sv self fd vdn v in
  let d := del_txt_record sv self fd vdn v in
  (exists e, outcome a = inl e) /\ (exists e, outcome d = inl e)
  /\ (forall r, In r (requests a) \/ In r (requests d) -> In r (preamble self))
  /\ (login_ok sv self = true -> domain_ok sv self fd = true ->
      run a = (after (preamble self) [], inl AssertionError)
      /\ run d = (after (preamble self) [], inl AssertionError)).
Proof.
  intros Hend a d.
  assert (Ha := add_txt_record_run sv self fd vdn v).
  assert (Hd := del_txt_record_run sv self fd vdn v).
  fold a in Ha. fold d in Hd. rewrite Hend in Ha, Hd.
  unfold outcome, requests. unfold run in Ha, Hd. rewrite Ha, Hd.
  destruct (login_ok sv self); [destruct (domain_ok sv self fd)|];
    cbn [fst snd sent after];
    (split; [eexists; reflexivity|]); (split; [eexists; reflexivity|]);
    (split; [|try discriminate; auto]);
    intros r [Hin | Hin]; cbn [preamble In] in *; tauto.
Qed.

Lemma precondition_checked_before_mutation_witness :
  run (add_txt_record (scripted [""; "alice"; "example.com"]) alice
         "example.com" "_acme-challenge.example.org" "abc123")
  = (after (preamble alice) [], inl AssertionError)
  /\ run (del_txt_record (scripted [""; "alice"; "example.com"]) alice
            "example.com" "_acme-challenge.example.org" "abc123")
     = (after (preamble alice) [], inl AssertionError).
Proof.
  apply (precondition_checked_before_mutation (scripted [""; "alice"; "example.com"]) alice
           "example.com" "_acme-challenge.example.org" "abc123"); reflexivity.
Defined.

(** ** A record that is not listed *)

(** C3: when the listing page does not contain the record value,
    [get_txt_record_id] returns [None] without raising, and
    [del_txt_record] (login, domain check and precondition passed) returns
    successfully after the listing request, with no deletion request. *)
Theorem absent_record_is_noop (sv : server) (self : client) (fd vdn value : string) :
  (forall w, PyStr.contains (sv (sent w ++ [listing_get fd])%list) value = false ->
             get_txt_record_id sv fd value w
             = (after (sent w ++ [listing_get fd]) (stdout w), inr None))
  /\ (login_ok sv self = true -> domain_ok sv self fd = true ->
      PyStr.endswith vdn ("." ++ fd) = true ->
      PyStr.contains (listing_text sv self fd) value = false ->
      run (del_txt_record sv self fd vdn value)
      = (after (preamble self ++ [listing_get fd]) [], inr tt)).
Proof.
  split.
  - intros w H. rewrite get_txt_record_id_run. cbv zeta. now rewrite H.
  - intros Hl Hd He Hc. rewrite del_txt_record_run, Hl, Hd, He. cbv zeta.
    unfold listing_text in Hc. now rewrite Hc.
Qed.

Lemma absent_record_is_noop_witness :
  get_txt_record_id (scripted [""; "alice"; "example.com"; "<html>no records</html>"])
    "example.com" "abc123" (after (preamble alice) [])
  = (after (preamble alice ++ [listing_get "example.com"]) [], inr None)
  /\ run (del_txt_record (scripted [""; "alice"; "example.com"; "<html>no records</html>"])
            alice "example.com" "_acme-challenge.example.com" "abc123")
     = (after (preamble alice ++ [listing_get "example.com"]) [], inr tt).
Proof.
  pose proof (absent_record_is_noop
                (scripted [""; "alice"; "example.com"; "<html>no records</html>"])
                alice "example.com" "_acme-challenge.example.com" "abc123") as [H1 H2].
  split.
  - apply (H1 (after (preamble alice) [])). reflexivity.
  - apply H2; reflexivity.
Defined.

(** ** The id of a listed record *)

Lemma link_free_spec (mid tail : string) :
  link_free mid tail = true ->
  forall m1 m2, mid = m1 ++ m2 -> m2 <> "" -> forall d, ~ delete_link (m2 ++ tail) d.
Proof.
  induction mid as [|c mid IH]; intros H m1 m2 E Hne d Hd.
  - destruct m1; [simpl in E; congruence | discriminate].
  - cbn [link_free] in H.
    destruct (link_id (String c mid ++ tail)) eqn:L; [discriminate|].
    destruct m1 as [|a m1].
    + simpl in E. subst m2. apply link_id_complete in Hd. congruence.
    + simpl in E. injection E as _ E. exact (IH H m1 m2 E Hne d Hd).
Qed.

(** C4 as stated fails: when two deletion links follow the value, the id
    of the second one is not returned, although that link also follows the
    value across intervening markup. *)
Lemma any_following_link_counterexample :
  ~ (forall (sv : server) (fd value : string) (w : world)
            (pre mid amp digits post : string) (n : N),
        sv (sent w ++ [listing_get fd])%list
        = pre ++ ">" ++ value ++ mid
              ++ "action=dns_primary_delete_txt" ++ amp ++ "id=" ++ digits ++ post ->
        amp = "&" \/ amp = "&amp;" ->
        PyStr.int digits = inr n ->
        snd (get_txt_record_id sv fd value w) = inr (Some n)).
Proof.
  intros H.
  specialize (H (scripted
                   [">TOKENVALUE</td><td>action=dns_primary_delete_txt&id=7</td><td>action=dns_primary_delete_txt&id=12345"])
                "apex.test" "TOKENVALUE" fresh
                "" "</td><td>action=dns_primary_delete_txt&id=7</td><td>"
                "&" "12345" "" 12345%N eq_refl (or_introl eq_refl) eq_refl).
  vm_compute in H. discriminate H.
Qed.

(** C4, amended: when the leftmost occurrence of [">" + value] in the
    listing page is followed, across any markup that holds no deletion link,
    by a deletion-action link ([action=dns_primary_delete_txt], [&] or
    [&amp;], [id=] and a run of at most 4300 digits that ends there),
    [get_txt_record_id] returns the id of that first link as an integer (4300
    digits being the most that [int] converts); in particular it returns
    12345 for the page [>TOKENVALUE...action=dns_primary_delete_txt&id=12345]
    and the value [TOKENVALUE]. *)
Theorem get_txt_record_id_first_link
        (sv : server) (fd value : string) (w : world) (pre mid tail digits : string) :
  let rs := (sent w ++ [listing_get fd])%list in
  (sv rs = pre ++ ">" ++ value ++ mid ++ tail ->
   PyStr.find (sv rs) (">" ++ value) = Some (String.length pre) ->
   delete_link tail digits ->
   String.length digits <= PyStr.max_str_digits ->
   (forall m1 m2, mid = m1 ++ m2 -> m2 <> "" -> forall d, ~ delete_link (m2 ++ tail) d) ->
   exists n, PyStr.int digits = inr n
             /\ get_txt_record_id sv fd value w = (after rs (stdout w), inr (Some n)))
  /\ (sv rs = ">TOKENVALUE...action=dns_primary_delete_txt&id=12345" ->
      get_txt_record_id sv fd "TOKENVALUE" w = (after rs (stdout w), inr (Some 12345%N))).
Proof.
  intros rs. split.
  - intros Hbody Hfind Hlink Hlen Hmid.
    assert (Hd := Hlink). destruct Hd as [amp [rest [_ [_ [Hne [Hall _]]]]]].
    destruct (int_total digits Hne Hall Hlen) as [n [Hn _]].
    exists n. split; [exact Hn|].
    rewrite get_txt_record_id_run. fold rs. cbv zeta.
    rewrite Hbody in Hfind |- *.
    assert (Hc : PyStr.contains (pre ++ ">" ++ value ++ mid ++ tail) value = true).
    { apply contains_spec. exists (pre ++ ">"), (mid ++ tail).
      now rewrite append_assoc. }
    rewrite Hc.
    rewrite (search_leftmost value pre (mid ++ tail) (Some digits) Hfind).
    + cbn [int_group]. now rewrite Hn.
    + apply first_suffix_mid.
      * now rewrite (link_id_complete _ _ Hlink).
      * intros m1 m2 E Hm2.
        destruct (link_id (m2 ++ tail)) as [d|] eqn:L; [|reflexivity].
        apply link_id_sound in L. now destruct (Hmid m1 m2 E Hm2 d).
  - intros Hbody. rewrite get_txt_record_id_run. fold rs. cbv zeta. rewrite Hbody.
    vm_compute. reflexivity.
Qed.

Lemma get_txt_record_id_first_link_witness :
  get_txt_record_id
    (scripted [">abc123</td><td><a href=?action=dns_primary_delete_txt&amp;id=99>x</a>"])
    "example.com" "abc123" fresh
  = (after [listing_get "example.com"] [], inr (Some 99%N)).
Proof.
  destruct (get_txt_record_id_first_link
              (scripted [">abc123</td><td><a href=?action=dns_primary_delete_txt&amp;id=99>x</a>"])
              "example.com" "abc123" fresh
              "" "</td><td><a href=?" "action=dns_primary_delete_txt&amp;id=99>x</a>" "99")
    as [H _].
  destruct H as [n [Hn Hrun]].
  - reflexivity.
  - reflexivity.
  - exists "&amp;", ">x</a>". repeat split; [now right | discriminate].
  - apply Nat.leb_le. reflexivity.
  - apply link_free_spec. reflexivity.
  - injection Hn as <-. exact Hrun.
Defined.

(** ** A listed value without a deletion link *)

(** C5: when the listing page contains the record value but the deletion
    link pattern does not match, [get_txt_record_id] raises its parse
    exception (after printing the page) and does not return [None]. *)
Theorem get_txt_record_id_parse_error (sv : server) (fd value : string) (w : world) :
  let rs := (sent w ++ [listing_get fd])%list in
  PyStr.contains (sv rs) value = true ->
  Re.search (delete_link_pattern value) (sv rs) = None ->
  get_txt_record_id sv fd value w
  = (after rs (stdout w ++ [sv rs]), inl (Exception "Regex match failed"))
  /\ snd (get_txt_record_id sv fd value w) <> inr None.
Proof.
  intros rs Hc Hs. rewrite get_txt_record_id_run. fold rs. cbv zeta.
  rewrite Hc, Hs. split; [reflexivity | discriminate].
Qed.

Lemma get_txt_record_id_parse_error_witness :
  get_txt_record_id (scripted ["<td>abc123</td><td>no link</td>"]) "example.com" "abc123" fresh
  = (after [listing_get "example.com"] ["<td>abc123</td><td>no link</td>"],
     inl (Exception "Regex match failed"))
  /\ snd (get_txt_record_id (scripted ["<td>abc123</td><td>no link</td>"])
            "example.com" "abc123" fresh) <> inr None.
Proof.
  apply (get_txt_record_id_parse_error (scripted ["<td>abc123</td><td>no link</td>"])
           "example.com" "abc123" fresh); reflexivity.
Defined.

(** C10: when the record value occurs in the listing page but never right
    after a [>], [get_txt_record_id] raises its parse exception whatever
    follows the value, a deletion link included; and a match of the pattern
    always implies that the value occurs, so the presence test is the weaker
    of the two. *)
Theorem get_txt_record_id_needs_bracket (sv : server) (fd value : string) (w : world) :
  let rs := (sent w ++ [listing_get fd])%list in
  (PyStr.contains (sv rs) value = true ->
   PyStr.contains (sv rs) (">" ++ value) = false ->
   snd (get_txt_record_id sv fd value w) = inl (Exception "Regex match failed"))
  /\ (forall g, Re.search (delete_link_pattern value) (sv rs) = Some g ->
                PyStr.contains (sv rs) value = true).
Proof.
  intros rs. split.
  - intros Hc Hb. rewrite get_txt_record_id_run. fold rs. cbv zeta. rewrite Hc.
    destruct (Re.search (delete_link_pattern value) (sv rs)) as [g|] eqn:E;
      [|reflexivity].
    apply search_contains in E. congruence.
  - intros g E. apply search_contains in E.
    apply (contains_trans _ _ _ E).
    apply contains_spec. exists ">", "". now rewrite append_empty_r.
Qed.

Lemma get_txt_record_id_needs_bracket_witness :
  snd (get_txt_record_id
         (scripted ["<td title=abc123 href=?action=dns_primary_delete_txt&id=5>"])
         "example.com" "abc123" fresh)
  = inl (Exception "Regex match failed").
Proof.
  apply (get_txt_record_id_needs_bracket
           (scripted ["<td title=abc123 href=?action=dns_primary_delete_txt&id=5>"])
           "example.com" "abc123" fresh); reflexivity.
Defined.

(** ** A rejected login *)

(** C6: when the profile page does not contain the username, [login]
    raises its exception after the login and profile requests, and the
    enclosing [add_txt_record] or [del_txt_record] stops there: no
    domain-check, add, listing or deletion request is issued. *)
Theorem login_failure_stops_operation (sv : server) (self : client) (fd vdn v : string) :
  PyStr.contains (profile_text sv self) (username self) = false ->
  let stopped := (after [login_post self; profile_get] [],
                  inl (Exception ("GratisDNS login failed for " ++ username self))) in
  run (login sv self) = stopped
  /\ run (add_txt_record sv self fd vdn v) = stopped
  /\ run (del_txt_record sv self fd vdn v) = stopped.
Proof.
  intros H stopped. repeat split.
  - unfold run, login, bind, session_post, session_get, session_request, raise, fresh.
    cbn [sent stdout app]. unfold profile_text, login_post, profile_get in H.
    rewrite H. reflexivity.
  - rewrite add_txt_record_run. unfold login_ok. now rewrite H.
  - rewrite del_txt_record_run. unfold login_ok. now rewrite H.
Qed.

Lemma login_failure_stops_operation_witness :
  run (add_txt_record (scripted [""; "<html>please log in</html>"]) alice
         "example.com" "_acme-challenge.example.com" "abc123")
  = (after [login_post alice; profile_get] [],
     inl (Exception "GratisDNS login failed for alice")).
Proof.
  apply (login_failure_stops_operation (scripted [""; "<html>please log in</html>"]) alice
           "example.com" "_acme-challenge.example.com" "abc123"). reflexivity.
Defined.

(** ** The outcome of a deletion request *)




(** ** The response to an add request *)

Lemma answering_add_elsewhere (body : string) (sv : server) (h : list request)
      (r : request) :
  action r <> Some "dns_primary_record_add_txt" ->
  answering_add body sv (h ++ [r])%list = sv (h ++ [r])%list.
Proof.
  intros H. unfold answering_add. rewrite last_last. unfold is_add.
  destruct (action r) as [a|]; [|reflexivity].
  destruct (String.eqb_spec a "dns_primary_record_add_txt"); [congruence | reflexivity].
Qed.

(** C8: [add_txt_record] does not look at the response to its add request.
    Two providers that differ only in what they answer to add requests give
    the same run, and once login, the domain check and the suffix assertion
    pass the call returns without raising under both. *)
Theorem add_txt_record_ignores_response
        (sv1 sv2 : server) (self : client) (fd vdn v : string) :
  (forall h r, action r <> Some "dns_primary_record_add_txt" ->
               sv1 (h ++ [r])%list = sv2 (h ++ [r])%list) ->
  run (add_txt_record sv1 self fd vdn v) = run (add_txt_record sv2 self fd vdn v)
  /\ (login_ok sv1 self = true -> domain_ok sv1 self fd = true ->
      PyStr.endswith vdn ("." ++ fd) = true ->
      outcome (add_txt_record sv1 self fd vdn v) = inr tt
      /\ outcome (add_txt_record sv2 self fd vdn v) = inr tt).
Proof.
  intros Hsame.
  assert (Hl : login_ok sv1 self = login_ok sv2 self).
  { unfold login_ok, profile_text.
    assert (E := Hsame [login_post self] profile_get). cbn [app] in E.
    rewrite E; [reflexivity | discriminate]. }
  assert (Hd : domain_ok sv1 self fd = domain_ok sv2 self fd).
  { unfold domain_ok, domains_text, preamble.
    assert (E := Hsame [login_post self; profile_get] domains_get). cbn [app] in E.
    rewrite E; [reflexivity | discriminate]. }
  assert (Hrun : run (add_txt_record sv1 self fd vdn v)
                 = run (add_txt_record sv2 self fd vdn v))
    by (rewrite !add_txt_record_run, Hl, Hd; reflexivity).
  split; [exact Hrun|].
  intros Hlok Hdok Hend.
  assert (Ho : outcome (add_txt_record sv1 self fd vdn v) = inr tt).
  { unfold outcome. pose proof (add_txt_record_run sv1 self fd vdn v) as H.
    unfold run in H. rewrite H, Hlok, Hdok, Hend.
    destruct (rpartition_dot vdn fd) as [parts ->]. reflexivity. }
  split; [exact Ho|].
  unfold outcome in *. unfold run in Hrun. now rewrite <- Hrun.
Qed.

Lemma add_txt_record_ignores_response_witness :
  run (add_txt_record (answering_add "<html>error</html>"
                         (scripted [""; "alice"; "example.com"; "ok"]))
         alice "example.com" "_acme-challenge.example.com" "abc123")
  = run (add_txt_record (scripted [""; "alice"; "example.com"; "ok"])
           alice "example.com" "_acme-challenge.example.com" "abc123").
Proof.
  apply (add_txt_record_ignores_response
           (answering_add "<html>error</html>" (scripted [""; "alice"; "example.com"; "ok"]))
           (scripted [""; "alice"; "example.com"; "ok"])
           alice "example.com" "_acme-challenge.example.com" "abc123").
  intros h r H. now apply answering_add_elsewhere.
Defined.

(** ** The five kinds of failure *)


Lemma outcome_run {A} (m : M A) : outcome m = snd (run m).
Proof. reflexivity. Qed.



(** * Further properties of the client *)

(** ** The scraper as a scan for the leftmost occurrence *)

Lemma first_suffix_none_inv {R} (k : string -> option R) (s : string) :
  first_suffix k s = None -> forall a b, s = a ++ b -> k b = None.
Proof.
  induction s as [|c t IH]; cbn [first_suffix]; intros H a b E.
  - destruct a; [|discriminate]. simpl in E. subst b.
    now destruct (k "").
  - destruct (k (String c t)) eqn:K; [discriminate|].
    destruct a as [|x a]; simpl in E.
    + now subst b.
    + injection E as _ E. exact (IH H a b E).
Qed.

Lemma first_suffix_none_all {R} (k : string -> option R) (s : string) :
  (forall a b, s = a ++ b -> k b = None) -> first_suffix k s = None.
Proof.
  induction s as [|c t IH]; cbn [first_suffix]; intros H.
  - now rewrite (H "" "" eq_refl).
  - rewrite (H "" (String c t) eq_refl). apply IH.
    intros a b ->. now apply (H (String c a) b).
Qed.

Lemma first_suffix_map {R S} (f : R -> S) (k : string -> option R) (s : string) :
  first_suffix (fun s' => option_map f (k s')) s = option_map f (first_suffix k s).
Proof.
  induction s as [|c t IH]; cbn [first_suffix].
  - now destruct (k "").
  - destruct (k (String c t)); [reflexivity | exact IH].
Qed.

Lemma drop_is_suffix (n : nat) (s : string) : exists a, s = a ++ PyStr.drop n s.
Proof.
  revert s; induction n as [|n IH]; intros s.
  - now exists "".
  - destruct s as [|c t]; [now exists ""|].
    destruct (IH t) as [a Ha]. exists (String c a). simpl. now rewrite <- Ha.
Qed.

Lemma drop_suffix_mono (n : nat) (a u : string) :
  exists a', PyStr.drop n (a ++ u) = a' ++ PyStr.drop n u.
Proof.
  revert n; induction a as [|c a IH]; intros n.
  - now exists "".
  - destruct n as [|n].
    + now exists (String c a).
    + change (PyStr.drop (S n) (String c a ++ u)) with (PyStr.drop n (a ++ u)).
      destruct (IH n) as [a1 E1]. rewrite E1.
      destruct u as [|x u]; [destruct n; now exists a1|].
      change (PyStr.drop (S n) (String x u)) with (PyStr.drop n u).
      destruct (drop_is_suffix 1 (PyStr.drop n (String x u))) as [a2 E2].
      assert (E3 : PyStr.drop 1 (PyStr.drop n (String x u)) = PyStr.drop n u).
      { clear. revert x u. induction n as [|n IHn]; intros x u; [reflexivity|].
        destruct u as [|y u]; [now destruct n | apply IHn]. }
      rewrite E3 in E2. exists (a1 ++ a2). now rewrite append_assoc, <- E2.
Qed.

Lemma search_none_after (v : string) (c : ascii) (t : string) :
  first_suffix (fun s' => option_map Some (link_id s'))
    (PyStr.drop (String.length (">" ++ v)) (String c t)) = None ->
  Re.search (delete_link_pattern v) t = None.
Proof.
  intros H. rewrite search_first_suffix. apply first_suffix_none_all.
  intros a u ->. rewrite match_here_pattern.
  destruct (PyStr.startswith u (">" ++ v)); [|reflexivity].
  apply first_suffix_none_all. intros a' b E.
  destruct (drop_suffix_mono (String.length (">" ++ v)) (String c a) u) as [a2 E2].
  change (String c a ++ u) with (String c (a ++ u)) in E2.
  apply (first_suffix_none_inv _ _ H (a2 ++ a') b).
  now rewrite E2, E, append_assoc.
Qed.

Lemma search_is_leftmost (v body : string) :
  Re.search (delete_link_pattern v) body = option_map Some (find_record_link v body).
Proof.
  unfold find_record_link. induction body as [|c t IH].
  - reflexivity.
  - cbn [Re.search PyStr.find]. rewrite match_here_pattern.
    destruct (PyStr.startswith (String c t) (">" ++ v)) eqn:P.
    + change (0 + String.length (">" ++ v)) with (String.length (">" ++ v)).
      rewrite first_suffix_map.
      destruct (first_suffix link_id _) eqn:F; [reflexivity|].
      cbn [option_map]. apply (search_none_after v c t).
      rewrite first_suffix_map, F. reflexivity.
    + rewrite IH. destruct (PyStr.find t (">" ++ v)) as [i|]; reflexivity.
Qed.

Lemma find_record_link_digits (v body d : string) :
  find_record_link v body = Some d -> d <> "" /\ all_digits d = true.
Proof.
  unfold find_record_link. destruct (PyStr.find body (">" ++ v)); [|discriminate].
  intros H. apply first_suffix_some in H as [a [b [_ H]]].
  apply link_id_sound in H as [amp [rest [_ [_ [Hne [Hall _]]]]]]. now split.
Qed.

Lemma int_group_some (d : string) : int_group (Some d) = PyStr.int d.
Proof. reflexivity. Qed.

(** X1: the answer of [get_txt_record_id] is that of a plain scan: [None]
    when the value is not in the page; otherwise what [int] makes of the id
    digits of the first deletion link after the leftmost occurrence of
    [">" + value] (the integer, or the [ValueError] of [int]), and the parse
    exception when there is no such occurrence or no such link after it.
    Later occurrences of the value never matter. *)
Theorem get_txt_record_id_scan (sv : server) (fd value : string) (w : world) :
  let rs := (sent w ++ [listing_get fd])%list in
  snd (get_txt_record_id sv fd value w)
  = if PyStr.contains (sv rs) value then
      match record_id value (sv rs) with
      | Some (inr n) => inr (Some n)
      | Some (inl e) => inl e
      | None => inl (Exception "Regex match failed")
      end
    else inr None.
Proof.
  intros rs. rewrite get_txt_record_id_run. fold rs. cbv zeta.
  destruct (PyStr.contains (sv rs) value); [|reflexivity].
  rewrite search_is_leftmost. unfold record_id.
  destruct (find_record_link value (sv rs)) as [d|]; [|reflexivity].
  cbn [option_map]. rewrite int_group_some.
  destruct (PyStr.int d); reflexivity.
Qed.

(** X2: the two exceptions of [get_txt_record_id]. It raises its parse
    exception, after printing the page, when the value is in the page and the
    scan finds no deletion link; it raises the [ValueError] of [int], without
    printing, when the id of the link found has more than 4300 digits; and it
    raises nothing else: group 1 of a match always took part in it and holds
    digits only. *)
Theorem get_txt_record_id_raises
        (sv : server) (fd value : string) (w : world) (e : exn) :
  let body := sv (sent w ++ [listing_get fd])%list in
  snd (get_txt_record_id sv fd value w) = inl e ->
  PyStr.contains body value = true
  /\ ((e = Exception "Regex match failed"
       /\ find_record_link value body = None
       /\ stdout (fst (get_txt_record_id sv fd value w)) = (stdout w ++ [body])%list)
      \/ (e = ValueError
          /\ (exists d, find_record_link value body = Some d
                        /\ PyStr.max_str_digits < String.length d)
          /\ stdout (fst (get_txt_record_id sv fd value w)) = stdout w)).
Proof.
  cbv zeta. rewrite get_txt_record_id_run. cbv zeta.
  set (body := sv (sent w ++ [listing_get fd])%list).
  destruct (PyStr.contains body value); [|cbn [snd]; discriminate].
  rewrite search_is_leftmost.
  destruct (find_record_link value body) as [d|] eqn:F.
  - cbn [option_map]. rewrite int_group_some.
    destruct (find_record_link_digits _ _ _ F) as [Hne Hall].
    destruct (Nat.le_gt_cases (String.length d) PyStr.max_str_digits) as [Hlen | Hlen].
    + destruct (int_total d Hne Hall Hlen) as [n [Hn _]]. rewrite Hn. discriminate.
    + rewrite (int_too_long d Hlen). cbn [fst snd]. intros [= <-].
      split; [reflexivity|]. right. repeat split. now exists d.
  - cbn [option_map fst snd]. intros [= <-].
    split; [reflexivity|]. left. repeat split.
Qed.

Lemma get_txt_record_id_raises_witness :
  PyStr.contains (scripted ["<td>abc123</td>"] [listing_get "example.com"]) "abc123" = true
  /\ ((Exception "Regex match failed" = Exception "Regex match failed"
       /\ find_record_link "abc123"
            (scripted ["<td>abc123</td>"] [listing_get "example.com"]) = None
       /\ stdout (fst (get_txt_record_id (scripted ["<td>abc123</td>"])
                         "example.com" "abc123" fresh))
          = ["<td>abc123</td>"])
      \/ (Exception "Regex match failed" = ValueError
          /\ (exists d, find_record_link "abc123"
                          (scripted ["<td>abc123</td>"] [listing_get "example.com"]) = Some d
                        /\ PyStr.max_str_digits < String.length d)
          /\ stdout (fst (get_txt_record_id (scripted ["<td>abc123</td>"])
                            "example.com" "abc123" fresh)) = [])).
Proof.
  apply (get_txt_record_id_raises (scripted ["<td>abc123</td>"])
           "example.com" "abc123" fresh). reflexivity.
Defined.

(** ** The id, from the page to the deletion request *)

Lemma int_digits_string_of_uint (d : Decimal.uint) (acc : N) :
  PyStr.int_digits acc (NilEmpty.string_of_uint d) = Some (acc_uint d acc).
Proof.
  revert acc; induction d; intros acc; cbn [NilEmpty.string_of_uint acc_uint];
    try reflexivity; cbn [PyStr.int_digits];
    match goal with
    | |- context [PyStr.is_digit ?c] =>
        change (PyStr.is_digit c) with true; cbv iota
    end; rewrite IHd; reflexivity.
Qed.

Lemma of_uint_acc_N (d : Decimal.uint) (p : positive) :
  Npos (Pos.of_uint_acc d p) = acc_uint d (Npos p).
Proof.
  revert p; induction d; intros p; cbn [Pos.of_uint_acc acc_uint];
    try reflexivity; rewrite IHd; f_equal; lia.
Qed.

Lemma of_uint_N (d : Decimal.uint) : N.of_uint d = acc_uint d 0.
Proof.
  unfold N.of_uint. induction d; cbn [Pos.of_uint acc_uint];
    try reflexivity; try exact IHd; apply of_uint_acc_N.
Qed.

Lemma to_uint_nonnil (n : N) : N.to_uint n <> Decimal.Nil.
Proof.
  destruct n as [|p]; [discriminate|]. apply DecimalPos.Unsigned.to_uint_nonnil.
Qed.

Lemma length_string_of_uint (u : Decimal.uint) :
  String.length (NilEmpty.string_of_uint u) = Decimal.nb_digits u.
Proof. induction u; simpl; congruence. Qed.

Lemma numeral_nonempty (n : N) : PyStr.numeral n <> "".
Proof.
  unfold PyStr.numeral. pose proof (to_uint_nonnil n) as H.
  destruct (N.to_uint n); try discriminate. congruence.
Qed.

Lemma int_digits_numeral (n : N) : PyStr.int_digits 0 (PyStr.numeral n) = Some n.
Proof.
  unfold PyStr.numeral.
  now rewrite int_digits_string_of_uint, <- of_uint_N, DecimalN.Unsigned.of_to.
Qed.

(** What [str] prints, [int] reads back. *)
Lemma int_str (n : N) (s : string) : PyStr.str n = inr s -> PyStr.int s = inr n.
Proof.
  unfold PyStr.str.
  destruct (Nat.leb (String.length (PyStr.numeral n)) PyStr.max_str_digits) eqn:L;
    [|discriminate].
  intros [= <-]. unfold PyStr.int. pose proof (numeral_nonempty n) as H.
  destruct (PyStr.numeral n) eqn:E; [congruence|].
  rewrite L. rewrite <- E, int_digits_numeral. reflexivity.
Qed.

Lemma is_digit_cases (c : ascii) :
  PyStr.is_digit c = true ->
  exists f, (forall u, uint_of_char c (Some u) = Some (f u))
            /\ forall u, NilEmpty.string_of_uint (f u) = String c (NilEmpty.string_of_uint u).
Proof.
  destruct c as [[|] [|] [|] [|] [|] [|] [|] [|]]; try discriminate; intros _;
    first [ exists Decimal.D0; split; reflexivity
          | exists Decimal.D1; split; reflexivity
          | exists Decimal.D2; split; reflexivity
          | exists Decimal.D3; split; reflexivity
          | exists Decimal.D4; split; reflexivity
          | exists Decimal.D5; split; reflexivity
          | exists Decimal.D6; split; reflexivity
          | exists Decimal.D7; split; reflexivity
          | exists Decimal.D8; split; reflexivity
          | exists Decimal.D9; split; reflexivity ].
Qed.

Lemma all_digits_uint (d : string) :
  all_digits d = true ->
  exists u, NilEmpty.string_of_uint u = d.
Proof.
  induction d as [|c d IH]; [now exists Decimal.Nil|].
  cbn [all_digits]. intros H. apply andb_true_iff in H as [Hc Hd].
  destruct (IH Hd) as [u <-]. destruct (is_digit_cases c Hc) as [f [_ Hf]].
  exists (f u). apply Hf.
Qed.

Lemma int_digits_all (d : string) (acc n : N) :
  PyStr.int_digits acc d = Some n -> all_digits d = true.
Proof.
  revert acc; induction d as [|c d IH]; intros acc; [reflexivity|].
  cbn [PyStr.int_digits all_digits].
  destruct (PyStr.is_digit c); [apply IH | discriminate].
Qed.

(** [int d = inr n] taken apart: [d] is a numeral of [n], of an admissible
    length. *)
Lemma int_inr (d : string) (n : N) :
  PyStr.int d = inr n ->
  exists u, NilEmpty.string_of_uint u = d /\ u <> Decimal.Nil /\ n = N.of_uint u
            /\ String.length d <= PyStr.max_str_digits.
Proof.
  unfold PyStr.int. destruct d as [|c d]; [discriminate|].
  destruct (Nat.leb (String.length (String c d)) PyStr.max_str_digits) eqn:L;
    [|discriminate].
  destruct (PyStr.int_digits 0 (String c d)) as [m|] eqn:E; [|discriminate].
  intros [= <-].
  destruct (all_digits_uint _ (int_digits_all _ _ _ E)) as [u Hu].
  exists u. split; [exact Hu | split; [|split]].
  - intros ->. discriminate Hu.
  - rewrite <- Hu, int_digits_string_of_uint, <- of_uint_N in E. congruence.
  - now apply Nat.leb_le.
Qed.

(** The numeral of an integer that [int] has read is no longer than the
    digits it was read from, so [str] prints it. *)
Lemma str_of_int (d : string) (n : N) :
  PyStr.int d = inr n -> PyStr.str n = inr (PyStr.numeral n).
Proof.
  intros H. apply int_inr in H as [u [<- [Hnil [-> Hlen]]]].
  unfold PyStr.str, PyStr.numeral.
  rewrite DecimalN.Unsigned.to_of, length_string_of_uint.
  rewrite length_string_of_uint in Hlen.
  pose proof (DecimalFacts.nb_digits_unorm u Hnil) as Hle.
  replace (Nat.leb (Decimal.nb_digits (Decimal.unorm u)) PyStr.max_str_digits) with true;
    [reflexivity|].
  symmetry. apply Nat.leb_le. exact (Nat.le_trans _ _ _ Hle Hlen).
Qed.

Lemma canonical_unorm (u : Decimal.uint) :
  canonical (NilEmpty.string_of_uint u) = true -> Decimal.unorm u = u.
Proof.
  destruct u; try reflexivity; try discriminate.
  cbn [NilEmpty.string_of_uint canonical]. rewrite andb_true_iff. intros [_ H].
  cbn in H. destruct u; try discriminate H. reflexivity.
Qed.

Lemma numeral_canonical (d : string) (n : N) :
  canonical d = true -> PyStr.int d = inr n -> PyStr.numeral n = d.
Proof.
  intros Hc H. apply int_inr in H as [u [<- [_ [-> _]]]].
  unfold PyStr.numeral. now rewrite DecimalN.Unsigned.to_of, (canonical_unorm u Hc).
Qed.

(** X3: when the scan of the listing page finds id digits [d], at most 4300
    of them, [del_txt_record] (login, domain check and precondition passed)
    sends one deletion request after the listing request, with [user_domain]
    the apex and [id] the decimal numeral of the integer that [int] read
    from [d]: a numeral that [int] reads back as the same id, and [d] itself
    when [d] does not start with a needless zero. *)
Theorem deletion_request_carries_id
        (sv : server) (self : client) (fd vdn v d : string) :
  login_ok sv self = true -> domain_ok sv self fd = true ->
  PyStr.endswith vdn ("." ++ fd) = true ->
  PyStr.contains (listing_text sv self fd) v = true ->
  find_record_link v (listing_text sv self fd) = Some d ->
  String.length d <= PyStr.max_str_digits ->
  exists n,
    PyStr.int d = inr n
    /\ requests (del_txt_record sv self fd vdn v)
       = (preamble self
          ++ [listing_get fd;
              mkRequest GET GRATISDNS_API
                [("action", "dns_primary_delete_txt"); ("id", PyStr.numeral n);
                 ("user_domain", fd)] []])%list
    /\ PyStr.int (PyStr.numeral n) = inr n
    /\ (canonical d = true -> PyStr.numeral n = d).
Proof.
  intros Hl Hd He Hc Hf Hlen.
  destruct (find_record_link_digits _ _ _ Hf) as [Hne Hall].
  destruct (int_total d Hne Hall Hlen) as [n [Hn _]].
  pose proof (str_of_int d n Hn) as Hs.
  exists n. split; [exact Hn | split; [|split]].
  - unfold requests. pose proof (del_txt_record_run sv self fd vdn v) as R.
    unfold run in R. rewrite R, Hl, Hd, He. cbv zeta.
    unfold listing_text in Hc, Hf. rewrite Hc, search_is_leftmost, Hf.
    cbn [option_map]. rewrite int_group_some, Hn, Hs.
    destruct (PyStr.contains _ "Record was deleted"); reflexivity.
  - now apply int_str.
  - intros Hcan. now apply numeral_canonical.
Qed.

Lemma deletion_request_carries_id_witness :
  exists n,
    PyStr.int "99" = inr n
    /\ requests (del_txt_record
                   (scripted [""; "alice"; "example.com";
                              ">abc123</td><td>action=dns_primary_delete_txt&id=99>";
                              "Record was deleted"])
                   alice "example.com" "_acme-challenge.example.com" "abc123")
       = (preamble alice
          ++ [listing_get "example.com";
              mkRequest GET GRATISDNS_API
                [("action", "dns_primary_delete_txt"); ("id", PyStr.numeral n);
                 ("user_domain", "example.com")] []])%list
    /\ PyStr.int (PyStr.numeral n) = inr n
    /\ (canonical "99" = true -> PyStr.numeral n = "99").
Proof.
  apply (deletion_request_carries_id
           (scripted [""; "alice"; "example.com";
                      ">abc123</td><td>action=dns_primary_delete_txt&id=99>";
                      "Record was deleted"])
           alice "example.com" "_acme-challenge.example.com" "abc123" "99");
    try reflexivity.
  apply Nat.leb_le. reflexivity.
Defined.

(** ** The order of the requests *)

(** X4: the requests of an operation are always an initial segment of one
    fixed sequence: login POST, profile GET, domain-list GET, and then the
    add POST for [add_txt_record], the listing GET and one deletion GET for
    [del_txt_record]. No request is repeated, reordered or retried, and
    neither operation issues a request of the other. *)
Theorem requests_follow_fixed_order (sv : server) (self : client) (fd vdn v : string) :
  (exists k name,
      requests (add_txt_record sv self fd vdn v)
      = firstn k (preamble self ++ [add_post self fd name v]))
  /\ (exists k id,
        requests (del_txt_record sv self fd vdn v)
        = firstn k (preamble self ++ [listing_get fd; delete_get fd id])).
Proof.
  split.
  - unfold requests. pose proof (add_txt_record_run sv self fd vdn v) as R.
    unfold run in R. rewrite R. clear R.
    destruct (rpartition_dot vdn fd) as [parts ->].
    destruct (login_ok sv self); [|now exists 2, ""].
    destruct (domain_ok sv self fd); [|now exists 3, ""].
    destruct (PyStr.endswith vdn ("." ++ fd)); [|now exists 3, ""].
    now exists 4, (fst (fst parts)).
  - unfold requests. pose proof (del_txt_record_run sv self fd vdn v) as R.
    unfold run in R. rewrite R. clear R. cbv zeta.
    destruct (login_ok sv self); [|now exists 2, ""].
    destruct (domain_ok sv self fd); [|now exists 3, ""].
    destruct (PyStr.endswith vdn ("." ++ fd)); [|now exists 3, ""].
    destruct (PyStr.contains (sv (preamble self ++ [listing_get fd])%list) v);
      [|now exists 4, ""].
    destruct (Re.search (delete_link_pattern v) (sv (preamble self ++ [listing_get fd])%list))
      as [g|]; [|now exists 4, ""].
    destruct (int_group g) as [e|id]; [now exists 4, ""|].
    destruct (PyStr.str id) as [e|id_str]; [now exists 4, ""|].
    exists 5, id_str.
    destruct (PyStr.contains _ "Record was deleted"); reflexivity.
Qed.

(** ** When an addition succeeds *)

(** X5: [add_txt_record] returns without raising exactly when the profile
    page shows the username, the domain list shows the apex and the
    validation name ends with ["." + full_domain]; and it issues the add
    request exactly in that case. *)
Theorem add_txt_record_succeeds_iff (sv : server) (self : client) (fd vdn v : string) :
  let m := add_txt_record sv self fd vdn v in
  (outcome m = inr tt
   <-> login_ok sv self = true /\ domain_ok sv self fd = true
       /\ PyStr.endswith vdn ("." ++ fd) = true)
  /\ ((exists r, In r (requests m) /\ action r = Some "dns_primary_record_add_txt")
      <-> outcome m = inr tt).
Proof.
  intros m. unfold outcome, requests.
  pose proof (add_txt_record_run sv self fd vdn v) as R. fold m in R.
  unfold run in R. rewrite R. clear R.
  destruct (rpartition_dot vdn fd) as [parts ->].
  assert (P : forall r, In r (preamble self) ->
                        action r <> Some "dns_primary_record_add_txt")
    by (intros r [<- | [<- | [<- | []]]]; discriminate).
  destruct (login_ok sv self); [destruct (domain_ok sv self fd);
    [destruct (PyStr.endswith vdn ("." ++ fd))|]|]; cbn [fst snd sent after].
  - split; [tauto|]. split; [reflexivity|]. intros _.
    exists (add_post self fd (fst (fst parts)) v). split; [|reflexivity].
    apply in_or_app. right. now left.
  - split; [split; [discriminate | intros [_ [_ H]]; discriminate H]|].
    split; [|discriminate]. intros [r [Hin Ha]]. now destruct (P r Hin).
  - split; [split; [discriminate | intros [_ [H _]]; discriminate H]|].
    split; [|discriminate]. intros [r [Hin Ha]]. now destruct (P r Hin).
  - split; [split; [discriminate | intros [H _]; discriminate H]|].
    split; [|discriminate]. intros [r [Hin Ha]].
    exfalso. apply (P r); [|exact Ha]. cbn [preamble In] in *. tauto.
Qed.

Lemma add_txt_record_succeeds_iff_witness :
  outcome (add_txt_record (scripted [""; "alice"; "example.com"; "ok"]) alice
             "example.com" "_acme-challenge.example.com" "abc123") = inr tt.
Proof.
  pose proof (add_txt_record_succeeds_iff (scripted [""; "alice"; "example.com"; "ok"]) alice
                "example.com" "_acme-challenge.example.com" "abc123") as [[_ H] _].
  apply H. split; [reflexivity | split; reflexivity].
Defined.

(** ** What a deletion does with the validation name *)

(** X6: [del_txt_record] uses the validation name for the suffix assertion
    only: two names that both pass it, or both fail it, give the same run.
    The record is looked up by its value alone. *)
Theorem del_txt_record_ignores_name
        (sv : server) (self : client) (fd vdn1 vdn2 v : string) :
  PyStr.endswith vdn1 ("." ++ fd) = PyStr.endswith vdn2 ("." ++ fd) ->
  run (del_txt_record sv self fd vdn1 v) = run (del_txt_record sv self fd vdn2 v).
Proof.
  intros H. rewrite !del_txt_record_run, H. reflexivity.
Qed.

Lemma del_txt_record_ignores_name_witness :
  run (del_txt_record
         (scripted [""; "alice"; "example.com";
                    ">abc123</td><td>action=dns_primary_delete_txt&id=99>";
                    "Record was deleted"])
         alice "example.com" "_acme-challenge.example.com" "abc123")
  = run (del_txt_record
           (scripted [""; "alice"; "example.com";
                      ">abc123</td><td>action=dns_primary_delete_txt&id=99>";
                      "Record was deleted"])
           alice "example.com" "_acme-challenge.www.example.com" "abc123").
Proof.
  apply (del_txt_record_ignores_name
           (scripted [""; "alice"; "example.com";
                      ">abc123</td><td>action=dns_primary_delete_txt&id=99>";
                      "Record was deleted"])
           alice "example.com" "_acme-challenge.example.com"
           "_acme-challenge.www.example.com" "abc123").
  reflexivity.
Defined.

(** ** The response to the login POST *)

Lemma answering_login_elsewhere (body : string) (sv : server) (h : list request)
      (r : request) :
  action r <> Some "logmein" ->
  answering_login body sv (h ++ [r])%list = sv (h ++ [r])%list.
Proof.
  intros H. unfold answering_login. rewrite last_last. unfold is_login.
  destruct (action r) as [a|]; [|reflexivity].
  destruct (String.eqb_spec a "logmein"); [congruence | reflexivity].
Qed.

(** X7: [login] does not look at the response to its login POST: whether
    the provider accepted the credentials is read off the profile page
    alone. Two providers that differ only in what they answer to login POSTs
    give the same run of [login], of [add_txt_record] and of
    [del_txt_record]. *)
Theorem login_ignores_post_response
        (sv1 sv2 : server) (self : client) (fd vdn v : string) :
  (forall h r, action r <> Some "logmein" ->
               sv1 (h ++ [r])%list = sv2 (h ++ [r])%list) ->
  run (login sv1 self) = run (login sv2 self)
  /\ run (add_txt_record sv1 self fd vdn v) = run (add_txt_record sv2 self fd vdn v)
  /\ run (del_txt_record sv1 self fd vdn v) = run (del_txt_record sv2 self fd vdn v).
Proof.
  intros Hsame.
  assert (E1 : sv1 [login_post self; profile_get] = sv2 [login_post self; profile_get])
    by (apply (Hsame [login_post self] profile_get); discriminate).
  assert (E2 : sv1 (preamble self) = sv2 (preamble self))
    by (apply (Hsame [login_post self; profile_get] domains_get); discriminate).
  assert (E3 : sv1 (preamble self ++ [listing_get fd])%list
               = sv2 (preamble self ++ [listing_get fd])%list)
    by (apply (Hsame (preamble self) (listing_get fd)); discriminate).
  assert (E4 : forall id,
             sv1 ((preamble self ++ [listing_get fd]) ++ [delete_get fd id])%list
             = sv2 ((preamble self ++ [listing_get fd]) ++ [delete_get fd id])%list)
    by (intros id; apply (Hsame (preamble self ++ [listing_get fd])%list (delete_get fd id));
        discriminate).
  assert (Hl : login_ok sv1 self = login_ok sv2 self)
    by (unfold login_ok, profile_text; now rewrite E1).
  assert (Hd : domain_ok sv1 self fd = domain_ok sv2 self fd)
    by (unfold domain_ok, domains_text; now rewrite E2).
  split; [|split].
  - unfold run, login, bind, session_post, session_get, session_request, raise, ret, fresh.
    cbn [sent stdout app]. change (sv1 [_; _]) with (sv1 [login_post self; profile_get]).
    change (sv2 [_; _]) with (sv2 [login_post self; profile_get]).
    now rewrite E1.
  - now rewrite !add_txt_record_run, Hl, Hd.
  - rewrite !del_txt_record_run, Hl, Hd. cbv zeta. rewrite E3.
    destruct (login_ok sv2 self); [|reflexivity].
    destruct (domain_ok sv2 self fd); [|reflexivity].
    destruct (PyStr.endswith vdn ("." ++ fd)); [|reflexivity].
    destruct (PyStr.contains _ v); [|reflexivity].
    destruct (Re.search _ _) as [g|]; [|reflexivity].
    destruct (int_group g) as [e|id]; [reflexivity|].
    destruct (PyStr.str id) as [e|id_str]; [reflexivity|].
    now rewrite E4.
Qed.

Lemma login_ignores_post_response_witness :
  run (login (answering_login "<html>wrong password</html>" (scripted [""; "alice"])) alice)
  = run (login (scripted [""; "alice"]) alice).
Proof.
  apply (login_ignores_post_response
           (answering_login "<html>wrong password</html>" (scripted [""; "alice"]))
           (scripted [""; "alice"]) alice "example.com" "_acme-challenge.example.com" "abc123").
  intros h r H. now apply answering_login_elsewhere.
Defined.

(** ** Empty and embedded strings in the presence tests *)

Lemma contains_empty (s : string) : PyStr.contains s "" = true.
Proof. destruct s; reflexivity. Qed.

Lemma login_run (sv : server) (self : client) (fd : string) :
  run (login sv self)
  = if login_ok sv self then (after [login_post self; profile_get] [], inr tt)
    else (after [login_post self; profile_get] [],
          inl (error_value self fd AuthenticationError)).
Proof.
  unfold run, login, bind, session_post, session_get, session_request, raise, ret, fresh,
    login_ok, profile_text, login_post, profile_get, after, error_value.
  cbn [sent stdout app].
  destruct (PyStr.contains (sv _) (username self)); reflexivity.
Qed.

Lemma int_inl (d : string) (e : exn) : PyStr.int d = inl e -> e = ValueError.
Proof.
  unfold PyStr.int. destruct d; [congruence|].
  destruct (Nat.leb _ _); [|congruence].
  destruct (PyStr.int_digits 0 _); congruence.
Qed.

Lemma str_inl (n : N) (e : exn) : PyStr.str n = inl e -> e = ValueError.
Proof. unfold PyStr.str. destruct (Nat.leb _ _); congruence. Qed.

Lemma int_group_inl (v s : string) (g : option string) (e : exn) :
  Re.search (delete_link_pattern v) s = Some g -> int_group g = inl e -> e = ValueError.
Proof.
  intros S H. destruct (search_group_digits _ _ _ S) as [d [-> _]].
  now apply (int_inl d).
Qed.

(** The login exception is raised by the failed username test and by
    nothing else. *)
Lemma login_error_means_login_failed (sv : server) (self : client) (fd vdn v : string) :
  outcome (login sv self) = inl (error_value self fd AuthenticationError)
  \/ outcome (add_txt_record sv self fd vdn v) = inl (error_value self fd AuthenticationError)
  \/ outcome (del_txt_record sv self fd vdn v) = inl (error_value self fd AuthenticationError) ->
  login_ok sv self = false.
Proof.
  rewrite !outcome_run, (login_run sv self fd), add_txt_record_run, del_txt_record_run.
  cbv zeta. destruct (login_ok sv self); [|reflexivity].
  destruct (rpartition_dot vdn fd) as [parts ->].
  intros [H | [H | H]]; exfalso; [discriminate H | |].
  - destruct (domain_ok sv self fd); [|discriminate H].
    destruct (PyStr.endswith vdn ("." ++ fd)); discriminate H.
  - destruct (domain_ok sv self fd); [|discriminate H].
    destruct (PyStr.endswith vdn ("." ++ fd)); [|discriminate H].
    destruct (PyStr.contains _ v); [|discriminate H].
    destruct (Re.search _ _) as [g|] eqn:S; [|discriminate H].
    destruct (int_group g) as [e|id] eqn:G.
    + apply (int_group_inl _ _ _ _ S) in G. subst e. discriminate H.
    + destruct (PyStr.str id) as [e|id_str] eqn:T.
      * apply str_inl in T. subst e. discriminate H.
      * destruct (PyStr.contains _ "Record was deleted"); discriminate H.
Qed.

(** X8: the presence tests are substring tests, and the empty string is a
    substring of every page. With an empty username the username test of
    [login] always passes: neither [login] nor [add_txt_record] nor
    [del_txt_record] raises the login exception, whatever the provider
    answers. With an empty domain [check_domain] never raises. With an empty
    record value [get_txt_record_id] never answers that the record is
    absent. *)
Theorem empty_strings_pass_presence_tests (sv : server) (self : client)
        (fd vdn v : string) (w : world) :
  (username self = "" ->
   outcome (login sv self) <> inl (error_value self fd AuthenticationError)
   /\ outcome (add_txt_record sv self fd vdn v)
      <> inl (error_value self fd AuthenticationError)
   /\ outcome (del_txt_record sv self fd vdn v)
      <> inl (error_value self fd AuthenticationError))
  /\ snd (check_domain sv self "" w) = inr tt
  /\ snd (get_txt_record_id sv fd "" w) <> inr None.
Proof.
  split; [|split].
  - intros Hu.
    assert (Hl : login_ok sv self = true)
      by (unfold login_ok; rewrite Hu; apply contains_empty).
    repeat split; intros H;
      pose proof (login_error_means_login_failed sv self fd vdn v) as F;
      rewrite F in Hl; try discriminate Hl; tauto.
  - unfold check_domain, bind, session_get, session_request, raise, ret.
    cbn [sent stdout]. rewrite contains_empty. reflexivity.
  - rewrite get_txt_record_id_run. cbv zeta. rewrite contains_empty.
    destruct (Re.search _ _) as [g|]; [|discriminate].
    destruct (int_group g); discriminate.
Qed.

Lemma empty_strings_pass_presence_tests_witness :
  outcome (login (scripted [""; "<html>please log in</html>"]) nobody)
  <> inl (error_value nobody "example.com" AuthenticationError).
Proof.
  apply (empty_strings_pass_presence_tests
           (scripted [""; "<html>please log in</html>"]) nobody
           "example.com" "_acme-challenge.example.com" "abc123" fresh).
  reflexivity.
Defined.

(** X9: [check_domain] accepts a domain as soon as it occurs inside any
    text of the domain-list page, for instance inside a longer domain name:
    it issues one GET and returns without raising. *)
Theorem check_domain_accepts_substring
        (sv : server) (self : client) (fd listed : string) (w : world) :
  PyStr.contains (sv (sent w ++ [domains_get])%list) listed = true ->
  PyStr.contains listed fd = true ->
  check_domain sv self fd w = (after (sent w ++ [domains_get]) (stdout w), inr tt).
Proof.
  intros Hpage Hin.
  pose proof (contains_trans _ _ _ Hpage Hin) as H.
  unfold check_domain, bind, session_get, session_request, raise, ret, after.
  unfold domains_get in H. cbn [sent stdout]. rewrite H. reflexivity.
Qed.

Lemma check_domain_accepts_substring_witness :
  check_domain (scripted ["<li>notexample.com</li>"]) alice "example.com" fresh
  = (after [domains_get] [], inr tt).
Proof.
  apply (check_domain_accepts_substring (scripted ["<li>notexample.com</li>"]) alice
           "example.com" "notexample.com" fresh); reflexivity.
Defined.

(** ** The plugin, end to end *)

Lemma with_code_run {A} (totp : string -> exn + string)
      (obj : _GratisDnsClient) (method : client -> M A) (code : string) :
  totp (obj_otp_secret obj) = inr code ->
  run (with_code totp obj method)
  = run (method (mkClient (obj_username obj) (obj_password obj) code (obj_ttl obj))).
Proof.
  intros H. unfold run, with_code, bind, lift. now rewrite H.
Qed.

(** X10: [_perform], in a call whose one-time code [code] is produced, for
    a validation name [sub + "." + domain] and a provider whose profile page
    shows the configured username and whose domain list shows the domain,
    issues exactly four requests and returns: the login POST with the
    configured username, password and the code, the profile GET, the
    domain-list GET, and one add POST with [name = sub], [ttl = 60],
    [txtdata] the validation value and [user_domain] the domain. *)
Theorem perform_end_to_end (sv : server) (totp : string -> exn + string)
        (self : Authenticator) (domain sub validation code : string) :
  let login_req :=
    mkRequest POST "https://admin.gratisdns.com" []
      [("login", VStr (conf self "username")); ("password", VStr (conf self "password"));
       ("action", VStr "logmein"); ("oauth", VStr code)] in
  let profile_req :=
    mkRequest GET "https://admin.gratisdns.com" [("action", "usersetup_user")] [] in
  let domains_req :=
    mkRequest GET "https://admin.gratisdns.com" [("action", "dns_primarydns")] [] in
  let add_req :=
    mkRequest POST "https://admin.gratisdns.com"
      [("action", "dns_primary_record_add_txt"); ("user_domain", domain)]
      [("action", VStr "dns_primary_record_added_txt"); ("name", VStr sub);
       ("ttl", VInt 60); ("txtdata", VStr validation); ("user_domain", VStr domain)] in
  totp (conf self "otp-secret") = inr code ->
  PyStr.contains (sv [login_req; profile_req]) (conf self "username") = true ->
  PyStr.contains (sv [login_req; profile_req; domains_req]) domain = true ->
  run (_perform sv totp self domain (sub ++ "." ++ domain) validation)
  = (after [login_req; profile_req; domains_req; add_req] [], inr tt).
Proof.
  intros login_req profile_req domains_req add_req Hcode Hl Hd.
  unfold _perform. rewrite (with_code_run totp (_get_gratisdns_client self) _ code Hcode).
  unfold _get_gratisdns_client. cbn [obj_username obj_password obj_ttl].
  set (c := mkClient (conf self "username") (conf self "password") code Authenticator_ttl).
  rewrite add_txt_record_run.
  unfold login_ok, domain_ok, profile_text, domains_text, preamble.
  change (login_post c) with login_req.
  change profile_get with profile_req. change domains_get with domains_req.
  change (username c) with (conf self "username").
  rewrite Hl, Hd, endswith_app.
  unfold PyStr.rpartition. change ("." ++ domain) with (String "." domain).
  rewrite rsplit_last_suffix by discriminate. reflexivity.
Qed.

Lemma perform_end_to_end_witness :
  run (_perform (scripted [""; "alice"; "example.com"; "ok"]) fixed_totp alice_plugin
         "example.com" "_acme-challenge.example.com" "abc123")
  = (after
       [mkRequest POST "https://admin.gratisdns.com" []
          [("login", VStr "alice"); ("password", VStr "hunter2");
           ("action", VStr "logmein"); ("oauth", VStr "123456")];
        mkRequest GET "https://admin.gratisdns.com" [("action", "usersetup_user")] [];
        mkRequest GET "https://admin.gratisdns.com" [("action", "dns_primarydns")] [];
        mkRequest POST "https://admin.gratisdns.com"
          [("action", "dns_primary_record_add_txt"); ("user_domain", "example.com")]
          [("action", VStr "dns_primary_record_added_txt"); ("name", VStr "_acme-challenge");
           ("ttl", VInt 60); ("txtdata", VStr "abc123");
           ("user_domain", VStr "example.com")]] [],
     inr tt).
Proof.
  apply (perform_end_to_end (scripted [""; "alice"; "example.com"; "ok"]) fixed_totp
           alice_plugin "example.com" "_acme-challenge" "abc123" "123456"); reflexivity.
Defined.

(** X11: [_cleanup], in a call whose one-time code [code] is produced, for a
    provider that accepts the login and lists the domain, a validation name
    under the domain, and a listing page in which the scan finds the id
    digits [d] (at most 4300 of them, written without a needless zero),
    issues exactly five requests: the login POST, the profile, domain-list
    and listing GETs, and one deletion GET with [id = d] and [user_domain]
    the domain. It returns when the response to the deletion carries
    ["Record was deleted"] and raises its deletion exception otherwise. *)
Theorem cleanup_end_to_end (sv : server) (totp : string -> exn + string)
        (self : Authenticator) (domain vdn validation d code : string) :
  let login_req :=
    mkRequest POST "https://admin.gratisdns.com" []
      [("login", VStr (conf self "username")); ("password", VStr (conf self "password"));
       ("action", VStr "logmein"); ("oauth", VStr code)] in
  let profile_req :=
    mkRequest GET "https://admin.gratisdns.com" [("action", "usersetup_user")] [] in
  let domains_req :=
    mkRequest GET "https://admin.gratisdns.com" [("action", "dns_primarydns")] [] in
  let listing_req :=
    mkRequest GET "https://admin.gratisdns.com"
      [("action", "dns_primary_changeDNSsetup"); ("user_domain", domain)] [] in
  let delete_req :=
    mkRequest GET "https://admin.gratisdns.com"
      [("action", "dns_primary_delete_txt"); ("id", d); ("user_domain", domain)] [] in
  let session := [login_req; profile_req; domains_req; listing_req; delete_req] in
  totp (conf self "otp-secret") = inr code ->
  PyStr.contains (sv [login_req; profile_req]) (conf self "username") = true ->
  PyStr.contains (sv [login_req; profile_req; domains_req]) domain = true ->
  PyStr.endswith vdn ("." ++ domain) = true ->
  PyStr.contains (sv [login_req; profile_req; domains_req; listing_req]) validation = true ->
  find_record_link validation (sv [login_req; profile_req; domains_req; listing_req])
  = Some d ->
  String.length d <= PyStr.max_str_digits ->
  canonical d = true ->
  run (_cleanup sv totp self domain vdn validation)
  = (after session [],
     if PyStr.contains (sv session) "Record was deleted"
     then inr tt
     else inl (Exception "TXT record was not deleted!")).
Proof.
  intros login_req profile_req domains_req listing_req delete_req session
         Hcode Hl Hd He Hc Hf Hlen Hcan.
  unfold _cleanup. rewrite (with_code_run totp (_get_gratisdns_client self) _ code Hcode).
  unfold _get_gratisdns_client. cbn [obj_username obj_password obj_ttl].
  set (c := mkClient (conf self "username") (conf self "password") code Authenticator_ttl).
  rewrite del_txt_record_run.
  unfold login_ok, domain_ok, profile_text, domains_text, preamble.
  change (login_post c) with login_req.
  change profile_get with profile_req. change domains_get with domains_req.
  change (listing_get domain) with listing_req.
  change (username c) with (conf self "username").
  rewrite Hl, Hd, He. cbv zeta. cbn [app]. rewrite Hc, search_is_leftmost, Hf.
  cbn [option_map]. rewrite int_group_some.
  destruct (find_record_link_digits _ _ _ Hf) as [Hne Hall].
  destruct (int_total d Hne Hall Hlen) as [n [Hn _]]. rewrite Hn.
  rewrite (str_of_int d n Hn), (numeral_canonical d n Hcan Hn).
  change (delete_get domain d) with delete_req.
  fold session.
  destruct (PyStr.contains (sv session) "Record was deleted"); reflexivity.
Qed.

Lemma cleanup_end_to_end_witness :
  run (_cleanup
         (scripted [""; "alice"; "example.com";
                    ">abc123</td><td>action=dns_primary_delete_txt&id=99>";
                    "<p>Record was deleted</p>"])
         fixed_totp alice_plugin "example.com" "_acme-challenge.example.com" "abc123")
  = (after
       [mkRequest POST "https://admin.gratisdns.com" []
          [("login", VStr "alice"); ("password", VStr "hunter2");
           ("action", VStr "logmein"); ("oauth", VStr "123456")];
        mkRequest GET "https://admin.gratisdns.com" [("action", "usersetup_user")] [];
        mkRequest GET "https://admin.gratisdns.com" [("action", "dns_primarydns")] [];
        mkRequest GET "https://admin.gratisdns.com"
          [("action", "dns_primary_changeDNSsetup"); ("user_domain", "example.com")] [];
        mkRequest GET "https://admin.gratisdns.com"
          [("action", "dns_primary_delete_txt"); ("id", "99");
           ("user_domain", "example.com")] []] [],
     inr tt).
Proof.
  apply (cleanup_end_to_end
           (scripted [""; "alice"; "example.com";
                      ">abc123</td><td>action=dns_primary_delete_txt&id=99>";
                      "<p>Record was deleted</p>"])
           fixed_totp alice_plugin "example.com" "_acme-challenge.example.com" "abc123" "99"
           "123456");
    try reflexivity.
  apply Nat.leb_le. reflexivity.
Defined.

(** ** When a deletion succeeds *)

(** X12: [del_txt_record] returns without raising exactly when login, the
    domain check and the suffix assertion pass and either the listing page
    does not contain the value, or the scan of the page finds id digits that
    [int] converts (at most 4300 of them) and the response to the deletion
    request for the numeral of that id carries ["Record was deleted"]. *)
Theorem del_txt_record_succeeds_iff (sv : server) (self : client) (fd vdn v : string) :
  outcome (del_txt_record sv self fd vdn v) = inr tt
  <-> login_ok sv self = true /\ domain_ok sv self fd = true
      /\ PyStr.endswith vdn ("." ++ fd) = true
      /\ (PyStr.contains (listing_text sv self fd) v = false
          \/ exists id,
               record_id v (listing_text sv self fd) = Some (inr id)
               /\ PyStr.contains
                    (sv (preamble self
                         ++ [listing_get fd; delete_get fd (PyStr.numeral id)])%list)
                    "Record was deleted" = true).
Proof.
  unfold outcome. pose proof (del_txt_record_run sv self fd vdn v) as R.
  unfold run in R. rewrite R. clear R. cbv zeta. unfold listing_text, record_id.
  destruct (login_ok sv self); [|split; [discriminate | intros [H _]; discriminate H]].
  destruct (domain_ok sv self fd);
    [|split; [discriminate | intros [_ [H _]]; discriminate H]].
  destruct (PyStr.endswith vdn ("." ++ fd));
    [|split; [discriminate | intros [_ [_ [H _]]]; discriminate H]].
  destruct (PyStr.contains (sv (preamble self ++ [listing_get fd])%list) v);
    [|split; [intros _; repeat split; now left | reflexivity]].
  rewrite search_is_leftmost.
  destruct (find_record_link v (sv (preamble self ++ [listing_get fd])%list)) as [d|] eqn:F.
  - cbn [option_map]. rewrite int_group_some.
    destruct (PyStr.int d) as [e|n] eqn:Hn.
    + cbn [snd]. split; [discriminate|].
      intros [_ [_ [_ [H | [id [Hid _]]]]]]; discriminate.
    + rewrite (str_of_int d n Hn).
      change ((preamble self ++ [listing_get fd]) ++ [delete_get fd (PyStr.numeral n)])%list
        with (preamble self ++ [listing_get fd; delete_get fd (PyStr.numeral n)])%list.
      destruct (PyStr.contains
                  (sv (preamble self ++ [listing_get fd; delete_get fd (PyStr.numeral n)])%list)
                  "Record was deleted") eqn:E; cbn [snd].
      * split; [|reflexivity]. intros _. repeat split. right. now exists n.
      * split; [discriminate|]. intros [_ [_ [_ [H | [id [Hid Hm]]]]]]; [discriminate H|].
        injection Hid as <-. congruence.
  - cbn [option_map snd]. split; [discriminate|].
    intros [_ [_ [_ [H | [id [Hid _]]]]]]; discriminate.
Qed.

Lemma del_txt_record_succeeds_iff_witness :
  outcome (del_txt_record (scripted [""; "alice"; "example.com"; "<html>no records</html>"])
             alice "example.com" "_acme-challenge.example.com" "abc123") = inr tt.
Proof.
  apply (del_txt_record_succeeds_iff
           (scripted [""; "alice"; "example.com"; "<html>no records</html>"])
           alice "example.com" "_acme-challenge.example.com" "abc123").
  split; [reflexivity | split; [reflexivity | split; [reflexivity | left; reflexivity]]].
Defined.

(** ** The name of an added record, put back together *)

Lemma rsplit_last_of_suffix (vdn sep : string) :
  sep <> "" -> PyStr.endswith vdn sep = true ->
  exists name, PyStr.rsplit_last vdn sep = Some (name, "") /\ name ++ sep = vdn.
Proof.
  intros Hsep H. apply endswith_spec in H as [p ->].
  exists p. split; [now apply rsplit_last_suffix | reflexivity].
Qed.

(** X13: whatever the validation name, an add request that
    [add_txt_record] issues carries a [name] that, followed by ["."] and
    the apex, gives the validation name back: nothing of the name is lost or
    added by the split. *)
Theorem added_name_rebuilds_validation_name
        (sv : server) (self : client) (fd vdn v : string) (r : request) (name : string) :
  In r (requests (add_txt_record sv self fd vdn v)) ->
  action r = Some "dns_primary_record_add_txt" ->
  lookup "name" (data r) = Some (VStr name) ->
  name ++ "." ++ fd = vdn.
Proof.
  unfold requests. pose proof (add_txt_record_run sv self fd vdn v) as R.
  unfold run in R. rewrite R. clear R.
  assert (P : forall x, In x (preamble self) ->
                        action x <> Some "dns_primary_record_add_txt")
    by (intros x [<- | [<- | [<- | []]]]; discriminate).
  destruct (login_ok sv self);
    [|intros Hin Ha; exfalso; apply (P r); [cbn [preamble In fst sent after] in *; tauto
                                             | exact Ha]].
  destruct (domain_ok sv self fd); [|intros Hin Ha; now destruct (P r Hin)].
  destruct (PyStr.endswith vdn ("." ++ fd)) eqn:E;
    [|intros Hin Ha; now destruct (P r Hin)].
  change ("." ++ fd) with (String "." fd) in *.
  destruct (rsplit_last_of_suffix vdn (String "." fd)) as [nm [Hs Hnm]];
    [discriminate | exact E |].
  unfold PyStr.rpartition. rewrite Hs. cbn [fst sent after].
  intros Hin Ha Hname. apply in_app_or in Hin as [Hin | [<- | []]];
    [now destruct (P r Hin)|].
  cbn in Hname. injection Hname as <-. exact Hnm.
Qed.

Lemma added_name_rebuilds_validation_name_witness :
  "_acme-challenge" ++ "." ++ "example.com" = "_acme-challenge.example.com".
Proof.
  apply (added_name_rebuilds_validation_name
           (scripted [""; "alice"; "example.com"; "ok"]) alice
           "example.com" "_acme-challenge.example.com" "abc123"
           (add_post alice "example.com" "_acme-challenge" "abc123") "_acme-challenge").
  - vm_compute. do 3 right. left. reflexivity.
  - reflexivity.
  - reflexivity.
Defined.
